(** * weather-analysis-script.py: a shallow embedding and its properties

    The script is a straight-line program around three external systems:
    the [coder] credential helper (a subprocess), the BigQuery service and
    the plotting library.  Every effect it performs is recorded as a
    [step]: the source line of the statement together with the effect.  The
    answers of the outside world (which imports succeed, how a subprocess
    ends, what the query returns) are read from a [World].  What pandas and
    matplotlib do with the data of the table is not part of the script: it
    is a parameter, a [Library]. *)

From Stdlib Require Import List String Ascii ZArith Bool Arith Lia.
Import ListNotations.
Local Open Scope string_scope.
Local Open Scope list_scope.

(** ** Data model *)

Module Py.

(** A scalar held by a table cell.  Floats are carried as their bit
    pattern: the script never computes on them.  A missing value (NULL,
    NaN, NA) is the [None] cell. *)
Inductive value :=
| VInt (n : Z)
| VFloat (bits : Z)
| VStr (s : string)
| VBool (b : bool).

Definition cell := option value.

(** The transient in-memory table: named columns and rows of cells. *)
Record DataFrame := {
  columns : list string;
  rows : list (list cell)
}.

(** [errno] of an [OSError]; [FileNotFoundError] is [OSError ENOENT],
    [PermissionError] is [OSError EACCES]. *)
Inductive errno := ENOENT | EACCES | EIO.

Inductive exn :=
| ImportError
| CalledProcessError (returncode : Z) (cmd : list string)
| OSError (code : errno)
| KeyError (key : string)
| ValueError
| TypeError
| IndexError
| ApiError.

(** The classes named by the two [except] clauses of the script. *)
Inductive exn_class := CImportError | CCalledProcessError.

Definition isinstance (e : exn) (c : exn_class) : bool :=
  match e, c with
  | ImportError, CImportError => true
  | CalledProcessError _ _, CCalledProcessError => true
  | _, _ => false
  end.

(** How a spawned process ends: it exits with a status having written
    [stdout], or it could not be launched at all. *)
Inductive Proc :=
| Exited (returncode : Z) (stdout : string)
| LaunchFailed (code : errno).

(** How [client.query(sql).to_dataframe()] ends. *)
Inductive QueryOutcome :=
| QueryRejected
| FetchFailed
| Table (df : DataFrame).

(** The outside world of one run. *)
Record World := {
  import_ok : nat -> bool;
  executable : string;
  spawn : list string -> Proc;
  bigquery : option string -> string -> string -> QueryOutcome
}.

(** The calls into pandas and matplotlib whose result or success depends
    on the data of the table.  [describe_raises], [hist_raises] and
    [bar_raises] say whether [df.describe()], [ax.hist(data, ...)] and
    [series.plot(kind='bar', ...)] raise on their argument, and what. *)
Record Library := {
  value_counts : list cell -> list (value * nat);
  nunique : list cell -> Z;
  describe_raises : DataFrame -> option exn;
  hist_raises : list cell -> option exn;
  bar_raises : list (value * nat) -> option exn
}.

(** The pieces of a printed line: literal text and formatted values. *)
Inductive frag :=
| Lit (s : string)
| FInt (n : Z)
| FIntW (width : nat) (n : Z)
| FVal (v : value)
| FCols (l : list string)
| FExn (e : exn)
| FFrame (df : DataFrame)
| FDescribe (df : DataFrame).

Definition axis := (nat * nat)%type.

Inductive event :=
| Import (name : string)
| CheckCall (argv : list string)
| FilterWarnings (action : string)
| StyleUse (style : string)
| SetPalette (palette : string)
| RcParam (key : string) (w h : Z)
| Run (argv : list string) (capture_output text check : bool)
| Print (msg : list frag)
| Credentials (token : option string)
| Client (token : option string) (project : string)
| Query (sql : string)
| ToDataframe
| Info (df : DataFrame)
| Subplots (nrows ncols : nat) (w h : Z)
| Suptitle (title : string) (fontsize : Z)
| Hist (ax : axis) (data : list cell) (bins : Z) (color : string)
| SetTitle (ax : axis) (s : string)
| SetXlabel (ax : axis) (s : string)
| SetYlabel (ax : axis) (s : string)
| TightLayout
| Show
| Figure (w h : Z)
| BarPlot (data : list (value * nat)) (color : string)
| Title (s : string)
| Xlabel (s : string)
| Ylabel (s : string)
| Xticks (rotation : Z) (ha : string)
| Grid (ax : string).

(** An executed effect with the source line of its statement. *)
Definition step := (nat * event)%type.

Inductive result (A : Type) :=
| Done (a : A)
| Raised (e : exn).
Arguments Done {A} a.
Arguments Raised {A} e.

(** ** The monad of the script: read the world, log steps, maybe raise *)

Definition M (A : Type) := World -> list step * result A.

Definition ret {A} (a : A) : M A := fun _ => ([], Done a).

Definition bind {A B} (m : M A) (k : A -> M B) : M B :=
  fun w =>
    match m w with
    | (t, Done a) => let (t', r) := k a w in (t ++ t', r)
    | (t, Raised e) => (t, Raised e)
    end.

Definition tell (line : nat) (e : event) : M unit :=
  fun _ => ([(line, e)], Done tt).

Definition raise {A} (e : exn) : M A := fun _ => ([], Raised e).

Definition ask : M World := fun w => ([], Done w).

(** [try: m except c as e: h e] *)
Definition try_except {A} (m : M A) (c : exn_class) (h : exn -> M A) : M A :=
  fun w =>
    match m w with
    | (t, Done a) => (t, Done a)
    | (t, Raised e) =>
        if isinstance e c
        then let (t', r) := h e w in (t ++ t', r)
        else (t, Raised e)
    end.

Fixpoint for_each {A} (l : list A) (body : A -> M unit) : M unit :=
  match l with
  | [] => ret tt
  | x :: l' => bind (body x) (fun _ => for_each l' body)
  end.

End Py.

Export Py.

Declare Scope py_scope.
Delimit Scope py_scope with py.
Notation "x <- c1 ;; c2" := (bind c1 (fun x => c2))
  (at level 61, c1 at next level, right associativity) : py_scope.
Notation "c1 ;; c2" := (bind c1 (fun _ => c2))
  (at level 61, right associativity) : py_scope.
Local Open Scope py_scope.

(** ** Library functions the script calls *)

(** [str.isspace] on one character, for the code points below 256. *)
Definition isspace (c : ascii) : bool :=
  let n := nat_of_ascii c in
  (((9 <=? n) && (n <=? 13)) || ((28 <=? n) && (n <=? 32))
   || (n =? 133) || (n =? 160))%nat.

Fixpoint lstrip (s : string) : string :=
  match s with
  | EmptyString => EmptyString
  | String c s' => if isspace c then lstrip s' else s
  end.

Fixpoint rstrip (s : string) : string :=
  match s with
  | EmptyString => EmptyString
  | String c s' =>
      match rstrip s' with
      | EmptyString => if isspace c then EmptyString else String c EmptyString
      | t => String c t
      end
  end.

(** [s.strip()] *)
Definition strip (s : string) : string := rstrip (lstrip s).

(** Truth value of [access_token] in [if access_token:]. *)
Definition truthy (tok : option string) : bool :=
  match tok with
  | None => false
  | Some EmptyString => false
  | Some (String _ _) => true
  end.

Fixpoint index_of (c : string) (l : list string) : option nat :=
  match l with
  | [] => None
  | x :: l' => if String.eqb c x then Some 0
               else option_map S (index_of c l')
  end.

(** [c in df.columns] *)
Definition has_column (c : string) (df : DataFrame) : bool :=
  existsb (String.eqb c) (columns df).

(** [len(df)] *)
Definition len (df : DataFrame) : Z := Z.of_nat (List.length (rows df)).

(** [df.head()] *)
Definition head (df : DataFrame) : DataFrame :=
  {| columns := columns df; rows := firstn 5 (rows df) |}.

(** [df[c]]: the cells of column [c], [KeyError] when there is none. *)
Definition getitem (df : DataFrame) (c : string) : M (list cell) :=
  match index_of c (columns df) with
  | Some i => ret (map (fun r => nth i r None) (rows df))
  | None => raise (KeyError c)
  end.

(** [s.notna()]: the mask of the cells that hold a value. *)
Definition notna (s : list cell) : list bool :=
  map (fun c => match c with Some _ => true | None => false end) s.

Fixpoint select_rows {A} (l : list A) (mask : list bool) : list A :=
  match l, mask with
  | x :: l', b :: mask' =>
      if b then x :: select_rows l' mask' else select_rows l' mask'
  | _, _ => []
  end.

(** [df[mask]]: the rows whose mask entry is true. *)
Definition getitem_mask (df : DataFrame) (mask : list bool) : DataFrame :=
  {| columns := columns df; rows := select_rows (rows df) mask |}.

(** [enumerate(l, start)] *)
Fixpoint enumerate {A} (l : list A) (start : Z) : list (Z * A) :=
  match l with
  | [] => []
  | x :: l' => (start, x) :: enumerate l' (start + 1)
  end.

(** ** The script, top to bottom *)

Definition nl : string := String (ascii_of_nat 10) EmptyString.

(** [import name] of a third-party package: it may be missing. *)
Definition import_ (line : nat) (name : string) : M unit :=
  tell line (Import name) ;;
  w <- ask ;;
  if import_ok w line then ret tt else raise ImportError.

(** [import name] of a module of the standard library. *)
Definition import_std (line : nat) (name : string) : M unit :=
  tell line (Import name).

(** What a checked subprocess call does with the way the process ended. *)
Definition checked (argv : list string) (p : Proc) : M string :=
  match p with
  | Exited rc out =>
      if Z.eqb rc 0 then ret out else raise (CalledProcessError rc argv)
  | LaunchFailed c => raise (OSError c)
  end.

(** [subprocess.check_call(argv)] *)
Definition check_call (line : nat) (argv : list string) : M unit :=
  tell line (CheckCall argv) ;;
  w <- ask ;;
  _ <- checked argv (spawn w argv) ;;
  ret tt.

(** [subprocess.run(argv, capture_output=True, text=True, check=True)],
    returning [result.stdout]. *)
Definition subprocess_run (line : nat) (argv : list string) : M string :=
  tell line (Run argv true true true) ;;
  w <- ask ;;
  checked argv (spawn w argv).

Definition install_argv (exe : string) : list string :=
  [exe; "-m"; "pip"; "install"; "--break-system-packages"; "pandas";
   "matplotlib"; "seaborn"; "google-cloud-bigquery"; "db-dtypes"; "pyarrow"].

(** Lines 9-30.  The value of the [try] block says whether pandas was
    loaded on line 14; if it was, line 19 finds it loaded. *)
Definition prelude : M unit :=
  import_std 9 "sys" ;;
  import_std 10 "subprocess" ;;
  loaded <- try_except
    (import_ 14 "pandas" ;; ret true)
    CImportError
    (fun _ =>
       w <- ask ;;
       check_call 16 (install_argv (executable w)) ;;
       ret false) ;;
  import_std 17 "subprocess" ;;
  import_std 18 "os" ;;
  (if loaded : bool then import_std 19 "pandas" else import_ 19 "pandas") ;;
  import_ 20 "matplotlib.pyplot" ;;
  import_ 21 "seaborn" ;;
  import_ 22 "google.cloud.bigquery" ;;
  import_ 23 "google.oauth2.credentials" ;;
  import_std 24 "warnings" ;;
  tell 25 (FilterWarnings "ignore") ;;
  tell 28 (StyleUse "default") ;;
  tell 29 (SetPalette "husl") ;;
  tell 30 (RcParam "figure.figsize" 12 8).

Definition coder_argv : list string :=
  ["coder"; "external-auth"; "access-token"; "gcp"].

(** Lines 32-43.  [None] is Python's [None]. *)
Definition get_access_token : M (option string) :=
  try_except
    (stdout <- subprocess_run 34 coder_argv ;;
     ret (Some (strip stdout)))
    CCalledProcessError
    (fun e =>
       tell 42 (Print [Lit "Error: "; FExn e]) ;;
       ret None).

Definition project : string := "coder-vertex-demos".

(** Lines 54-58, the text between the triple quotes. *)
Definition query : string :=
  nl ++ "    SELECT * " ++ nl
     ++ "    FROM `bigquery-public-data.samples.gsod` " ++ nl
     ++ "    LIMIT 500" ++ nl
     ++ "    ".

(** [client.query(sql).to_dataframe()] for a client made from [token]. *)
Definition query_to_dataframe (line : nat) (token : option string)
    (sql : string) : M DataFrame :=
  tell line (Query sql) ;;
  w <- ask ;;
  match bigquery w token project sql with
  | QueryRejected => raise ApiError
  | FetchFailed => tell line ToDataframe ;; raise ApiError
  | Table df => tell line ToDataframe ;; ret df
  end.

(** A call into a library that raises [err] if the library says so. *)
Definition attempt (err : option exn) : M unit :=
  match err with
  | Some e => raise e
  | None => ret tt
  end.

(** [df[df[c].notna()][c]] *)
Definition clean (df : DataFrame) (c : string) : M (list cell) :=
  s <- getitem df c ;;
  getitem (getitem_mask df (notna s)) c.

(** ** Observations on steps *)

(** The source lines of a list of steps. *)
Definition lines (t : list step) : list nat := map fst t.

Definition events (t : list step) : list event := map snd t.

(** The work that needs a token: building the client, querying,
    summarising and plotting. *)
Definition is_work (e : event) : bool :=
  match e with
  | Credentials _ | Client _ _ | Query _ | ToDataframe | Info _
  | Subplots _ _ _ _ | Suptitle _ _ | Hist _ _ _ _
  | SetTitle _ _ | SetXlabel _ _ | SetYlabel _ _ | TightLayout | Show
  | Figure _ _ | BarPlot _ _ | Title _ | Xlabel _ | Ylabel _
  | Xticks _ _ | Grid _ => true
  | _ => false
  end.

Definition is_print (e : event) : bool :=
  match e with Print _ => true | _ => false end.

(** A spawn of the credential helper, by whichever call. *)
Fixpoint argv_eqb (a b : list string) : bool :=
  match a, b with
  | [], [] => true
  | x :: a', y :: b' => String.eqb x y && argv_eqb a' b'
  | _, _ => false
  end.

Definition spawns_helper (e : event) : bool :=
  match e with
  | Run argv _ _ _ | CheckCall argv => argv_eqb argv coder_argv
  | _ => false
  end.

(** The effects of lines 9-30: imports, the install call, settings. *)
Definition is_setup (e : event) : bool :=
  match e with
  | Import _ | CheckCall _ | FilterWarnings _ | StyleUse _
  | SetPalette _ | RcParam _ _ _ => true
  | _ => false
  end.

Fixpoint all_space (s : string) : bool :=
  match s with
  | EmptyString => true
  | String c s' => isspace c && all_space s'
  end.

Definition starts_with_space (s : string) : bool :=
  match s with
  | EmptyString => false
  | String c _ => isspace c
  end.

Fixpoint ends_with_space (s : string) : bool :=
  match s with
  | EmptyString => false
  | String c EmptyString => isspace c
  | String _ s' => ends_with_space s'
  end.

Definition is_query (e : event) : bool :=
  match e with Query _ => true | _ => false end.

Definition is_fetch (e : event) : bool :=
  match e with ToDataframe => true | _ => false end.

Definition is_credentials (e : event) : bool :=
  match e with Credentials _ => true | _ => false end.

Definition is_hist (e : event) : bool :=
  match e with Hist _ _ _ _ => true | _ => false end.

Definition is_bar (e : event) : bool :=
  match e with BarPlot _ _ => true | _ => false end.

Definition is_chart (e : event) : bool := is_hist e || is_bar e.

Definition count (p : event -> bool) (t : list step) : nat :=
  List.length (filter (fun s => p (snd s)) t).

(** The two steps every failed acquisition is recognised by. *)
Definition run_step : step := (34%nat, Run coder_argv true true true).

Definition failed_step : step :=
  (138%nat, Print [Lit "❌ Failed to get access token"]).

Definition error_step (rc : Z) : step :=
  (42%nat, Print [Lit "Error: "; FExn (CalledProcessError rc coder_argv)]).

(** [s.split()]: the maximal runs of characters that are not whitespace. *)
Fixpoint split_ws (s : string) (word : string) : list string :=
  let flush := match word with EmptyString => [] | _ => [word] end in
  match s with
  | EmptyString => flush
  | String c s' =>
      if isspace c then flush ++ split_ws s' EmptyString
      else split_ws s' (word ++ String c EmptyString)
  end.

Definition words (s : string) : list string := split_ws s EmptyString.

(** Every query that is submitted is the text of lines 54-58. *)
Definition submits_query (s : step) : bool :=
  match snd s with
  | Query sql => String.eqb sql query
  | _ => true
  end.

(** All steps of [t] come from source lines [lo] to [hi]. *)
Definition lines_in (lo hi : nat) (t : list step) : bool :=
  forallb (fun s => (lo <=? fst s) && (fst s <=? hi))%nat t.

(** The chart-drawing steps of a trace. *)
Definition charts (t : list step) : list step :=
  filter (fun s => is_chart (snd s)) t.

(** The station lines of the listing, those of line 133. *)
Definition listing (t : list step) : list step :=
  filter (fun s => (fst s =? 133)%nat) t.

(** The steps that are handed the token. *)
Definition uses_token (e : event) : bool :=
  match e with
  | Credentials _ | Client _ _ => true
  | _ => false
  end.

(** The call of line 16. *)
Definition is_install (e : event) : bool :=
  match e with CheckCall _ => true | _ => false end.

Definition install_step (w : World) : step :=
  (16%nat, CheckCall (install_argv (executable w))).

(** The steps of lines 9-16 when the install call is made. *)
Definition install_steps (w : World) : list step :=
  [(9%nat, Import "sys"); (10%nat, Import "subprocess");
   (14%nat, Import "pandas"); install_step w].

(** A cell that holds a value. *)
Definition present (c : cell) : bool :=
  match c with Some _ => true | None => false end.

(** The shape of a table: its numbers of rows and of columns. *)
Definition shape (df : DataFrame) : nat * nat :=
  (List.length (rows df), List.length (columns df)).

(** ** The steps of the analysis, as lists

    What the blocks of the analysis log for a table [df] when no library
    call raises; the lemmas on [exec] below relate the monadic code to
    them. *)

(** The cells of column [c]; empty when there is no such column. *)
Definition column (df : DataFrame) (c : string) : list cell :=
  match index_of c (columns df) with
  | Some i => map (fun r => nth i r None) (rows df)
  | None => []
  end.

(** The value of [clean df c] when the column is there. *)
Definition cleaned (df : DataFrame) (c : string) : list cell :=
  column (getitem_mask df (notna (column df c))) c.

(** Lines 62-74. *)
Definition summary_lead (df : DataFrame) : list step :=
  [(62, Print [Lit "✅ Retrieved "; FInt (len df); Lit " rows"]);
   (63, Print [Lit "📋 Columns: "; FCols (columns df)]);
   (66, Print [Lit (nl ++ "📊 First 5 rows:")]);
   (67, Print [FFrame (head df)]);
   (70, Print [Lit (nl ++ "📈 Dataset info:")]);
   (71, Info df);
   (74, Print [Lit (nl ++ "🔢 Statistical summary:")])]%nat.

Definition describe_step (df : DataFrame) : step :=
  (75%nat, Print [FDescribe df]).

Definition summary_steps (df : DataFrame) : list step :=
  summary_lead df ++ [describe_step df].

(** One conditional block of the grid. *)
Definition hist_block (df : DataFrame) (c : string) (line : nat) (ax : axis)
    (color title xlabel : string) : list step :=
  if has_column c df then
    [(line, Hist ax (cleaned df c) 30 color);
     (line + 1, SetTitle ax title);
     (line + 2, SetXlabel ax xlabel);
     (line + 3, SetYlabel ax "Frequency")]%nat
  else [].

Definition figure_open : list step :=
  [(78, Subplots 2 2 15 10);
   (79, Suptitle "Weather Data Analysis - GSOD Dataset" 16)]%nat.

Definition figure_close : list step := [(113, TightLayout); (114, Show)]%nat.

(** The four conditional blocks of lines 81-111. *)
Definition hist_blocks (df : DataFrame) : list step :=
  hist_block df "mean_temp" 84 (0, 0)%nat "skyblue"
    "Mean Temperature Distribution" "Temperature (°F)"
  ++ hist_block df "total_precipitation" 92 (0, 1)%nat "lightgreen"
       "Total Precipitation Distribution" "Precipitation (inches)"
  ++ hist_block df "mean_wind_speed" 100 (1, 0)%nat "coral"
       "Mean Wind Speed Distribution" "Wind Speed (knots)"
  ++ hist_block df "mean_visibility" 108 (1, 1)%nat "gold"
       "Mean Visibility Distribution" "Visibility (miles)".

Definition hist_steps (df : DataFrame) : list step :=
  figure_open ++ hist_blocks df ++ figure_close.

Definition station_line (p : Z * (value * nat)) : step :=
  (133%nat, Print [FIntW 2 (fst p); Lit ". Station "; FVal (fst (snd p));
                   Lit ": "; FInt (Z.of_nat (snd (snd p))); Lit " records"]).

(** Lines 48-61 for a token and line 135. *)
Definition client_steps (access_token : option string) : list step :=
  [(48, Print [Lit "✅ Access token obtained"]);
   (49, Credentials access_token);
   (50, Client access_token project);
   (51, Print [Lit "✅ BigQuery client ready"]);
   (60, Print [Lit "🔍 Executing BigQuery query..."]);
   (61, Query query);
   (61, ToDataframe)]%nat.

Definition complete_step : step :=
  (135%nat, Print [Lit (nl ++ "✅ Weather data analysis complete!")]).

(** The four columns of the histograms, each with its axis. *)
Definition hist_columns : list (axis * string) :=
  [((0, 0), "mean_temp"); ((0, 1), "total_precipitation");
   ((1, 0), "mean_wind_speed"); ((1, 1), "mean_visibility")]%nat.

(** ** Runs as plans

    A plan is a list of segments: the steps of a stretch of code, behind
    the exception, if any, that the library call at its head raises.
    [exec] runs a plan up to the first segment that raises. *)

Definition segment := (option exn * list step)%type.

Fixpoint exec (plan : list segment) : list step * result unit :=
  match plan with
  | [] => ([], Done tt)
  | (Some e, _) :: _ => ([], Raised e)
  | (None, steps) :: plan' => (steps ++ fst (exec plan'), snd (exec plan'))
  end.

(** The steps of a plan none of whose segments raises. *)
Definition steps_of (plan : list segment) : list step :=
  List.concat (map snd plan).

(** No segment raises. *)
Definition clear (plan : list segment) : bool :=
  forallb (fun s => match fst s with None => true | Some _ => false end) plan.

(** ** Properties of all the runs of a computation *)

(** [only q m]: every step [m] logs, in every world, satisfies [q]. *)
Definition only {A} (q : step -> bool) (m : M A) : Prop :=
  forall w, forallb q (fst (m w)) = true.

(** [atmost p n m]: in every world [m] logs at most [n] events of kind
    [p]. *)
Definition atmost {A} (p : event -> bool) (n : nat) (m : M A) : Prop :=
  forall w, (count p (fst (m w)) <= n)%nat.

Definition silent {A} (p : event -> bool) (m : M A) : Prop :=
  only (fun s => negb (p (snd s))) m.

(** ** The decisions of a run *)

(** The value [get_access_token] returns ([None] also when it raises). *)
Definition token_of (w : World) : option string :=
  match snd (get_access_token w) with
  | Done tok => tok
  | Raised _ => None
  end.

(** The top-level guard of line 47. *)
Definition guard (w : World) : bool := truthy (token_of w).

(** The table the run works on, if it gets that far. *)
Definition table_of (w : World) : option DataFrame :=
  if guard w then
    match bigquery w (token_of w) project query with
    | Table df => Some df
    | _ => None
    end
  else None.

Definition checked_columns : list string :=
  ["mean_temp"; "total_precipitation"; "mean_wind_speed"; "mean_visibility";
   "station_number"].

(** The outcomes of the five presence checks. *)
Definition presence (w : World) : list bool :=
  match table_of w with
  | Some df => map (fun c => has_column c df) checked_columns
  | None => []
  end.

(** Whether line 14 fails, which sends the run through line 16. *)
Definition installs (w : World) : bool := negb (import_ok w 14).

(** Whether the handler of lines 41-43 runs. *)
Definition helper_rejected (w : World) : bool :=
  match spawn w coder_argv with
  | Exited rc _ => negb (Z.eqb rc 0)
  | LaunchFailed _ => false
  end.

(** The lines a run that ends normally goes through, from its decisions. *)
Definition expected_path (inst rejected g : bool) (pres : list bool)
    (k : nat) : list nat :=
  ([9; 10; 14] ++ (if inst then [16] else [])
   ++ [17; 18; 19; 20; 21; 22; 23; 24; 25; 28; 29; 30]
   ++ [34] ++ (if rejected then [42] else [])
   ++ (if g then
         [48; 49; 50; 51; 60; 61; 61; 62; 63; 66; 67; 70; 71; 74; 75; 78; 79]
         ++ (if nth 0 pres false then [84; 85; 86; 87] else [])
         ++ (if nth 1 pres false then [92; 93; 94; 95] else [])
         ++ (if nth 2 pres false then [100; 101; 102; 103] else [])
         ++ (if nth 3 pres false then [108; 109; 110; 111] else [])
         ++ [113; 114]
         ++ (if nth 4 pres false
             then [120; 121; 122; 123; 124; 125; 126; 127; 128; 130; 131]
                  ++ repeat 133 k
             else [])
         ++ [135]
       else [138]))%nat.

(** ** A sample library and sample worlds *)

(** Equality of two values of one column (the columns of a query result
    are typed); the two zeros of the floats are one value. *)
Definition value_eqb (a b : value) : bool :=
  match a, b with
  | VInt x, VInt y => Z.eqb x y
  | VFloat x, VFloat y =>
      Z.eqb x y || (Z.eqb (Z.land x (2 ^ 63 - 1)) 0
                    && Z.eqb (Z.land y (2 ^ 63 - 1)) 0)
  | VStr x, VStr y => String.eqb x y
  | VBool x, VBool y => Bool.eqb x y
  | _, _ => false
  end.

(** The values left when missing cells are dropped. *)
Fixpoint dropna (s : list cell) : list value :=
  match s with
  | [] => []
  | Some v :: s' => v :: dropna s'
  | None :: s' => dropna s'
  end.

Fixpoint count_of (v : value) (l : list value) : nat :=
  match l with
  | [] => 0
  | x :: l' => ((if value_eqb v x then 1 else 0) + count_of v l')%nat
  end.

(** The distinct values in order of first appearance. *)
Fixpoint unique (l : list value) : list value :=
  match l with
  | [] => []
  | x :: l' => x :: filter (fun y => negb (value_eqb x y)) (unique l')
  end.

Fixpoint insert_desc (p : value * nat) (l : list (value * nat))
  : list (value * nat) :=
  match l with
  | [] => [p]
  | q :: l' => if (snd q <=? snd p)%nat then p :: l else q :: insert_desc p l'
  end.

(** Occurrences of each present value, most frequent first. *)
Definition count_values (s : list cell) : list (value * nat) :=
  let vs := dropna s in
  fold_right insert_desc [] (map (fun v => (v, count_of v vs)) (unique vs)).

Definition count_unique (s : list cell) : Z :=
  Z.of_nat (List.length (unique (dropna s))).

(** A float, given by its bits, that is neither an infinity nor a NaN;
    other values count as finite. *)
Definition finite (c : cell) : bool :=
  match c with
  | Some (VFloat bits) => negb (Z.eqb (Z.land (Z.shiftr bits 52) 2047) 2047)
  | _ => true
  end.

(** A library that fails where pandas and matplotlib are known to:
    [describe] on a table without columns, [hist] on data that is not
    finite, a bar plot of an empty series. *)
Definition sample_library : Library :=
  {| value_counts := count_values;
     nunique := count_unique;
     describe_raises := fun df =>
       match columns df with [] => Some ValueError | _ => None end;
     hist_raises := fun data =>
       if forallb finite data then None else Some ValueError;
     bar_raises := fun tops =>
       match tops with [] => Some IndexError | _ => None end |}.

(** Three rows of stations 1, 2, 2 with temperatures missing, 33.5, 41.0. *)
Definition df_sample : DataFrame :=
  {| columns := ["station_number"; "mean_temp"];
     rows := [[Some (VInt 1); None];
              [Some (VInt 2); Some (VFloat 4629911523169402880)];
              [Some (VInt 2); Some (VFloat 4630967054332067840)]] |}.

Definition df_bare : DataFrame :=
  {| columns := ["year"]; rows := [[Some (VInt 1929)]] |}.

(** The rows of [df_sample] without the temperatures. *)
Definition df_stations : DataFrame :=
  {| columns := ["station_number"];
     rows := [[Some (VInt 1)]; [Some (VInt 2)]; [Some (VInt 2)]] |}.

(** Temperatures 1.0 and infinity. *)
Definition df_inf : DataFrame :=
  {| columns := ["mean_temp"];
     rows := [[Some (VFloat 4607182418800017408)];
              [Some (VFloat 9218868437227405312)]] |}.

(** A world where everything is installed, the helper ends as [helper]
    and the query returns [df]. *)
Definition world_with (helper : Proc) (df : DataFrame) : World :=
  {| import_ok := fun _ => true;
     executable := "/usr/bin/python3";
     spawn := fun argv =>
                if argv_eqb argv coder_argv then helper
                else Exited 0 EmptyString;
     bigquery := fun _ _ _ => Table df |}.

Definition world_ok : World :=
  world_with (Exited 0 ("ya29.token" ++ nl)) df_sample.

Definition world_bare : World :=
  world_with (Exited 0 ("ya29.token" ++ nl)) df_bare.

Definition world_denied : World := world_with (Exited 1 EmptyString) df_sample.


Definition world_no_helper : World :=
  world_with (LaunchFailed ENOENT) df_sample.

(** As [world_denied], but pandas is not installed when line 14 runs and
    the install call succeeds. *)
Definition world_install : World :=
  {| import_ok := fun line => negb (line =? 14)%nat;
     executable := executable world_denied;
     spawn := spawn world_denied;
     bigquery := bigquery world_denied |}.

(** A world with the given import answers in which every process other
    than the helper ends as [other]; the helper is refused. *)
Definition world_with_imports (ok : nat -> bool) (other : Proc) : World :=
  {| import_ok := ok;
     executable := "/usr/bin/python3";
     spawn := fun argv =>
                if argv_eqb argv coder_argv then Exited 1 EmptyString
                else other;
     bigquery := fun _ _ _ => QueryRejected |}.

(** A world where the token is obtained and the service answers [answer]. *)
Definition world_answering (answer : QueryOutcome) : World :=
  {| import_ok := fun _ => true;
     executable := "/usr/bin/python3";
     spawn := fun _ => Exited 0 "ya29.token";
     bigquery := fun _ _ _ => answer |}.

Definition world_inf : World :=
  world_with (Exited 0 ("ya29.token" ++ nl)) df_inf.

(** ** The analysis, for a library *)

Section Script.

Variable lib : Library.

(** Lines 62-75: the printed summary of the table. *)
Definition summarize (df : DataFrame) : M unit :=
  tell 62 (Print [Lit "✅ Retrieved "; FInt (len df); Lit " rows"]) ;;
  tell 63 (Print [Lit "📋 Columns: "; FCols (columns df)]) ;;
  tell 66 (Print [Lit (nl ++ "📊 First 5 rows:")]) ;;
  tell 67 (Print [FFrame (head df)]) ;;
  tell 70 (Print [Lit (nl ++ "📈 Dataset info:")]) ;;
  tell 71 (Info df) ;;
  tell 74 (Print [Lit (nl ++ "🔢 Statistical summary:")]) ;;
  attempt (describe_raises lib df) ;;
  tell 75 (Print [FDescribe df]).

(** Lines 78-114: the figure with the 2x2 grid of histograms.  Of the
    keyword arguments of [hist], [bins] and [color] are recorded. *)
Definition histograms (df : DataFrame) : M unit :=
  tell 78 (Subplots 2 2 15 10) ;;
  tell 79 (Suptitle "Weather Data Analysis - GSOD Dataset" 16) ;;
  (if has_column "mean_temp" df then
     temp_clean <- clean df "mean_temp" ;;
     attempt (hist_raises lib temp_clean) ;;
     tell 84 (Hist (0, 0) temp_clean 30 "skyblue") ;;
     tell 85 (SetTitle (0, 0) "Mean Temperature Distribution") ;;
     tell 86 (SetXlabel (0, 0) "Temperature (°F)") ;;
     tell 87 (SetYlabel (0, 0) "Frequency")
   else ret tt) ;;
  (if has_column "total_precipitation" df then
     prcp_clean <- clean df "total_precipitation" ;;
     attempt (hist_raises lib prcp_clean) ;;
     tell 92 (Hist (0, 1) prcp_clean 30 "lightgreen") ;;
     tell 93 (SetTitle (0, 1) "Total Precipitation Distribution") ;;
     tell 94 (SetXlabel (0, 1) "Precipitation (inches)") ;;
     tell 95 (SetYlabel (0, 1) "Frequency")
   else ret tt) ;;
  (if has_column "mean_wind_speed" df then
     wind_clean <- clean df "mean_wind_speed" ;;
     attempt (hist_raises lib wind_clean) ;;
     tell 100 (Hist (1, 0) wind_clean 30 "coral") ;;
     tell 101 (SetTitle (1, 0) "Mean Wind Speed Distribution") ;;
     tell 102 (SetXlabel (1, 0) "Wind Speed (knots)") ;;
     tell 103 (SetYlabel (1, 0) "Frequency")
   else ret tt) ;;
  (if has_column "mean_visibility" df then
     vis_clean <- clean df "mean_visibility" ;;
     attempt (hist_raises lib vis_clean) ;;
     tell 108 (Hist (1, 1) vis_clean 30 "gold") ;;
     tell 109 (SetTitle (1, 1) "Mean Visibility Distribution") ;;
     tell 110 (SetXlabel (1, 1) "Visibility (miles)") ;;
     tell 111 (SetYlabel (1, 1) "Frequency")
   else ret tt) ;;
  tell 113 TightLayout ;;
  tell 114 Show.

(** Lines 117-133: the bar chart of the ten most frequent stations and
    their listing. *)
Definition station_analysis (df : DataFrame) : M unit :=
  if has_column "station_number" df then
    s <- getitem df "station_number" ;;
    let top_stations := firstn 10 (value_counts lib s) in
    tell 120 (Figure 12 6) ;;
    attempt (bar_raises lib top_stations) ;;
    tell 121 (BarPlot top_stations "steelblue") ;;
    tell 122 (Title "Top 10 Weather Stations by Number of Records") ;;
    tell 123 (Xlabel "Station ID") ;;
    tell 124 (Ylabel "Number of Records") ;;
    tell 125 (Xticks 45 "right") ;;
    tell 126 (Grid "y") ;;
    tell 127 TightLayout ;;
    tell 128 Show ;;
    s' <- getitem df "station_number" ;;
    tell 130 (Print [Lit (nl ++ "📡 Total unique stations: ");
                     FInt (nunique lib s')]) ;;
    tell 131 (Print [Lit "🏆 Top 10 stations:"]) ;;
    for_each (enumerate top_stations 1)
      (fun '(i, (station, count)) =>
         tell 133 (Print [FIntW 2 i; Lit ". Station "; FVal station;
                          Lit ": "; FInt (Z.of_nat count); Lit " records"]))
  else ret tt.

(** Lines 62-135: what is done with the table. *)
Definition report (df : DataFrame) : M unit :=
  summarize df ;;
  histograms df ;;
  station_analysis df ;;
  tell 135 (Print [Lit (nl ++ "✅ Weather data analysis complete!")]).

(** Lines 48-135: the branch taken when the token is truthy. *)
Definition analysis (access_token : option string) : M unit :=
  tell 48 (Print [Lit "✅ Access token obtained"]) ;;
  tell 49 (Credentials access_token) ;;
  tell 50 (Client access_token project) ;;
  tell 51 (Print [Lit "✅ BigQuery client ready"]) ;;
  tell 60 (Print [Lit "🔍 Executing BigQuery query..."]) ;;
  df <- query_to_dataframe 61 access_token query ;;
  report df.

(** Lines 46-138. *)
Definition main : M unit :=
  access_token <- get_access_token ;;
  if truthy access_token
  then analysis access_token
  else tell 138 (Print [Lit "❌ Failed to get access token"]).

(** The whole script. *)
Definition script : M unit := prelude ;; main.

(** ** Observations on a run *)

Definition trace (w : World) : list step := fst (script w).
Definition outcome (w : World) : result unit := snd (script w).

(** The lines of the executed statements, in order. *)
Definition path (w : World) : list nat := lines (trace w).

(** [top_stations] of line 118. *)
Definition top_stations (df : DataFrame) : list (value * nat) :=
  firstn 10 (value_counts lib (column df "station_number")).

(** Lines 121-133 when the bar plot is drawn. *)
Definition station_chart (df : DataFrame) : list step :=
  [(121, BarPlot (top_stations df) "steelblue");
   (122, Title "Top 10 Weather Stations by Number of Records");
   (123, Xlabel "Station ID");
   (124, Ylabel "Number of Records");
   (125, Xticks 45 "right");
   (126, Grid "y");
   (127, TightLayout);
   (128, Show);
   (130, Print [Lit (nl ++ "📡 Total unique stations: ");
                FInt (nunique lib (column df "station_number"))]);
   (131, Print [Lit "🏆 Top 10 stations:"])]%nat
  ++ map station_line (enumerate (top_stations df) 1).

Definition station_steps (df : DataFrame) : list step :=
  if has_column "station_number" df
  then (120%nat, Figure 12 6) :: station_chart df
  else [].

(** The charts drawn for [df] when no call raises, in source order. *)
Definition chart_steps (df : DataFrame) : list step :=
  (if has_column "mean_temp" df
   then [(84%nat, Hist (0, 0)%nat (cleaned df "mean_temp") 30 "skyblue")]
   else [])
  ++ (if has_column "total_precipitation" df
      then [(92%nat, Hist (0, 1)%nat (cleaned df "total_precipitation") 30
                       "lightgreen")]
      else [])
  ++ (if has_column "mean_wind_speed" df
      then [(100%nat, Hist (1, 0)%nat (cleaned df "mean_wind_speed") 30
                        "coral")]
      else [])
  ++ (if has_column "mean_visibility" df
      then [(108%nat, Hist (1, 1)%nat (cleaned df "mean_visibility") 30
                        "gold")]
      else [])
  ++ (if has_column "station_number" df
      then [(121%nat, BarPlot (top_stations df) "steelblue")]
      else []).

(** The number of iterations of the loop of line 132. *)
Definition stations_listed (w : World) : nat :=
  match table_of w with
  | Some df =>
      if has_column "station_number" df
      then List.length (enumerate (top_stations df) 1)
      else 0%nat
  | None => 0%nat
  end.

(** What [hist] raises on the data of column [c], if the column is there. *)
Definition hist_guard (df : DataFrame) (c : string) : option exn :=
  if has_column c df then hist_raises lib (cleaned df c) else None.

(** [hist] raises on none of the four columns that are in the table. *)
Definition hist_accepts (df : DataFrame) : Prop :=
  forall ax c, In (ax, c) hist_columns ->
               has_column c df = true ->
               hist_raises lib (filter present (column df c)) = None.

(** The plans of lines 62-75, 78-114, 117-133 and 62-135. *)
Definition summary_plan (df : DataFrame) : list segment :=
  [(None, summary_lead df); (describe_raises lib df, [describe_step df])].

Definition blocks_plan (df : DataFrame) : list segment :=
  [(hist_guard df "mean_temp",
    hist_block df "mean_temp" 84 (0, 0)%nat "skyblue"
      "Mean Temperature Distribution" "Temperature (°F)");
   (hist_guard df "total_precipitation",
    hist_block df "total_precipitation" 92 (0, 1)%nat "lightgreen"
      "Total Precipitation Distribution" "Precipitation (inches)");
   (hist_guard df "mean_wind_speed",
    hist_block df "mean_wind_speed" 100 (1, 0)%nat "coral"
      "Mean Wind Speed Distribution" "Wind Speed (knots)");
   (hist_guard df "mean_visibility",
    hist_block df "mean_visibility" 108 (1, 1)%nat "gold"
      "Mean Visibility Distribution" "Visibility (miles)")].

Definition hist_plan (df : DataFrame) : list segment :=
  (None, figure_open) :: blocks_plan df ++ [(None, figure_close)].

Definition station_plan (df : DataFrame) : list segment :=
  if has_column "station_number" df
  then [(None, [(120%nat, Figure 12 6)]);
        (bar_raises lib (top_stations df), station_chart df)]
  else [].

(** Lines 117-135. *)
Definition closing_plan (df : DataFrame) : list segment :=
  station_plan df ++ [(None, [complete_step])].

Definition report_plan (df : DataFrame) : list segment :=
  summary_plan df ++ hist_plan df ++ closing_plan df.

(** ** Closed forms of the runs

    What [analysis] and [main] log and return, by cases on the answers of
    the world; [analysis_closed] and [main_closed] below show that the
    monadic code agrees with them. *)

Definition analysis_result (tok : option string) (w : World)
  : list step * result unit :=
  match bigquery w tok project query with
  | QueryRejected => (firstn 6 (client_steps tok), Raised ApiError)
  | FetchFailed => (client_steps tok, Raised ApiError)
  | Table df =>
      (client_steps tok ++ fst (exec (report_plan df)),
       snd (exec (report_plan df)))
  end.

Definition main_result (w : World) : list step * result unit :=
  match spawn w coder_argv with
  | Exited rc out =>
      if Z.eqb rc 0 then
        if truthy (Some (strip out))
        then (run_step :: fst (analysis_result (Some (strip out)) w),
              snd (analysis_result (Some (strip out)) w))
        else ([run_step; failed_step], Done tt)
      else ([run_step; error_step rc; failed_step], Done tt)
  | LaunchFailed c => ([run_step], Raised (OSError c))
  end.

(** ** Reasoning about runs *)

Section Runs.

Context {A B : Type}.

Lemma bind_done (m : M A) (k : A -> M B) w t a :
  m w = (t, Done a) ->
  bind m k w = (t ++ fst (k a w), snd (k a w)).
Proof.
  intros E. unfold bind. rewrite E. destruct (k a w); reflexivity.
Qed.

Lemma bind_raised (m : M A) (k : A -> M B) w t e :
  m w = (t, Raised e) -> bind m k w = (t, Raised e).
Proof. intros E. unfold bind. rewrite E. reflexivity. Qed.

Lemma tell_bind line e (k : unit -> M B) w :
  bind (tell line e) k w = ((line, e) :: fst (k tt w), snd (k tt w)).
Proof. unfold bind, tell. destruct (k tt w); reflexivity. Qed.

Lemma bind_keeps (m : M A) (k : A -> M B) w s :
  In s (fst (m w)) -> In s (fst (bind m k w)).
Proof.
  unfold bind. destruct (m w) as [t [a|e]]; simpl; [|auto].
  destruct (k a w). simpl. intros H. apply in_or_app. auto.
Qed.

End Runs.

Section Only.

Variable q : step -> bool.

Lemma only_ret {A} (a : A) : only q (ret a).
Proof. intros w. reflexivity. Qed.

Lemma only_raise {A} e : only q (@raise A e).
Proof. intros w. reflexivity. Qed.

Lemma only_ask : only q ask.
Proof. intros w. reflexivity. Qed.

Lemma only_tell line e : q (line, e) = true -> only q (tell line e).
Proof. intros H w. simpl. rewrite H. reflexivity. Qed.

Lemma only_bind {A B} (m : M A) (k : A -> M B) :
  only q m -> (forall a, only q (k a)) -> only q (bind m k).
Proof.
  intros Hm Hk w. unfold bind. specialize (Hm w).
  destruct (m w) as [t [a|e]]; simpl in *; [|assumption].
  specialize (Hk a w). destruct (k a w) as [t' r]. simpl in *.
  rewrite forallb_app, Hm, Hk. reflexivity.
Qed.

Lemma only_try {A} (m : M A) c (h : exn -> M A) :
  only q m -> (forall e, only q (h e)) -> only q (try_except m c h).
Proof.
  intros Hm Hh w. unfold try_except. specialize (Hm w).
  destruct (m w) as [t [a|e]]; simpl in *; [assumption|].
  destruct (isinstance e c); [|assumption].
  specialize (Hh e w). destruct (h e w) as [t' r]. simpl in *.
  rewrite forallb_app, Hm, Hh. reflexivity.
Qed.

Lemma only_for_each {A} (l : list A) (body : A -> M unit) :
  (forall x, only q (body x)) -> only q (for_each l body).
Proof.
  intros Hb. induction l as [|x l IH]; simpl.
  - apply only_ret.
  - apply only_bind; [apply Hb | intros _; exact IH].
Qed.

End Only.

(** Decompose a goal [only q m] along the structure of [m]. *)
Ltac only_step :=
  first
    [ apply only_ret | apply only_raise | apply only_ask
    | apply only_tell; reflexivity
    | apply only_bind; [|intros ?]
    | apply only_try; [|intros ?]
    | apply only_for_each; intros ?
    | match goal with
      | |- only _ (if ?b then _ else _) => destruct b
      | |- only _ (match ?x with _ => _ end) => destruct x
      | |- only _ (let (_, _) := ?x in _) => destruct x
      end ].

Ltac only_tac := repeat only_step.

Lemma only_checked q argv p : only q (checked argv p).
Proof. unfold checked. only_tac. Qed.

Lemma only_getitem q df c : only q (getitem df c).
Proof. unfold getitem. only_tac. Qed.

Lemma only_clean q df c : only q (clean df c).
Proof.
  unfold clean. apply only_bind; [apply only_getitem|].
  intros s. apply only_getitem.
Qed.

Lemma count_app p t u : count p (t ++ u) = (count p t + count p u)%nat.
Proof. unfold count. rewrite filter_app, length_app. reflexivity. Qed.

Lemma count_none p t :
  forallb (fun s => negb (p (snd s))) t = true -> count p t = 0%nat.
Proof.
  unfold count. induction t as [|s t IH]; simpl; [reflexivity|].
  intros H. apply andb_true_iff in H as [H1 H2].
  destruct (p (snd s)); [discriminate|]. auto.
Qed.

Lemma forallb_In {X} (q : X -> bool) l x :
  forallb q l = true -> In x l -> q x = true.
Proof. intros H Hx. rewrite forallb_forall in H. auto. Qed.

Lemma only_weaken {A} (q q' : step -> bool) (m : M A) :
  (forall s, q s = true -> q' s = true) -> only q m -> only q' m.
Proof.
  intros Hq Hm w. specialize (Hm w).
  rewrite forallb_forall in *. auto.
Qed.

(** ** Lines 9-30 *)

Lemma prelude_setup : only (fun s => is_setup (snd s)) prelude.
Proof.
  unfold prelude, import_, import_std, check_call.
  only_tac; apply only_checked.
Qed.

Lemma prelude_lines : only (fun s => fst s <=? 30)%nat prelude.
Proof.
  unfold prelude, import_, import_std, check_call.
  only_tac; apply only_checked.
Qed.

Lemma script_run w :
  snd (prelude w) = Done tt ->
  script w = (fst (prelude w) ++ fst (main w), snd (main w)).
Proof.
  intros H. unfold script.
  apply (bind_done prelude (fun _ => main) w (fst (prelude w)) tt).
  destruct (prelude w) as [t r]. simpl in H. subst r. reflexivity.
Qed.

Lemma script_stops w e :
  snd (prelude w) = Raised e -> script w = (fst (prelude w), Raised e).
Proof.
  intros H. unfold script. apply bind_raised.
  destruct (prelude w) as [t r]. simpl in H. subst r. reflexivity.
Qed.

(** ** Lines 32-43 *)

Lemma get_access_token_run w :
  get_access_token w =
  match spawn w coder_argv with
  | Exited rc out =>
      if Z.eqb rc 0
      then ([run_step], Done (Some (strip out)))
      else ([run_step;
             (42%nat, Print [Lit "Error: ";
                             FExn (CalledProcessError rc coder_argv)])],
            Done None)
  | LaunchFailed c => ([run_step], Raised (OSError c))
  end.
Proof.
  unfold get_access_token, try_except, subprocess_run, bind, tell, ask,
    checked.
  destruct (spawn w coder_argv) as [rc out|c]; simpl; [|reflexivity].
  destruct (Z.eqb rc 0); reflexivity.
Qed.

Lemma main_falsy w t tok :
  get_access_token w = (t, Done tok) -> truthy tok = false ->
  main w = (t ++ [failed_step], Done tt).
Proof.
  intros E F. unfold main. rewrite (bind_done _ _ _ _ _ E), F. reflexivity.
Qed.

Lemma main_truthy w t tok :
  get_access_token w = (t, Done tok) -> truthy tok = true ->
  main w = (t ++ fst (analysis tok w), snd (analysis tok w)).
Proof.
  intros E F. unfold main. rewrite (bind_done _ _ _ _ _ E), F. reflexivity.
Qed.

(** ** [str.strip] *)



Lemma lstrip_split s :
  exists a, s = (a ++ lstrip s)%string /\ all_space a = true.
Proof.
  induction s as [|c s [a [E Ha]]]; simpl.
  - exists EmptyString. auto.
  - destruct (isspace c) eqn:Hc.
    + exists (String c a). simpl. rewrite Hc, Ha, <- E. auto.
    + exists EmptyString. auto.
Qed.

Lemma rstrip_split s :
  exists b, s = (rstrip s ++ b)%string /\ all_space b = true.
Proof.
  induction s as [|c s [b [E Hb]]]; simpl.
  - exists EmptyString. auto.
  - destruct (rstrip s) as [|d r] eqn:Hr.
    + simpl in E. subst b. destruct (isspace c) eqn:Hc.
      * exists (String c s). simpl. rewrite Hc, Hb. auto.
      * exists s. auto.
    + exists b. simpl in *. rewrite <- E. auto.
Qed.

Lemma lstrip_head s : starts_with_space (lstrip s) = false.
Proof.
  induction s as [|c s IH]; simpl; [reflexivity|].
  destruct (isspace c) eqn:Hc; [assumption|]. simpl. assumption.
Qed.

Lemma rstrip_head s :
  starts_with_space s = false -> starts_with_space (rstrip s) = false.
Proof.
  destruct s as [|c s]; simpl; [reflexivity|].
  intros Hc. destruct (rstrip s); rewrite ?Hc; simpl; assumption.
Qed.

Lemma rstrip_tail s : ends_with_space (rstrip s) = false.
Proof.
  induction s as [|c s IH]; simpl; [reflexivity|].
  destruct (rstrip s) as [|d r] eqn:Hr.
  - destruct (isspace c) eqn:Hc; simpl; auto.
  - exact IH.
Qed.

Lemma strip_spec s :
  (exists a b, s = (a ++ strip s ++ b)%string
               /\ all_space a = true /\ all_space b = true)
  /\ starts_with_space (strip s) = false
  /\ ends_with_space (strip s) = false.
Proof.
  unfold strip. split; [|split].
  - destruct (lstrip_split s) as [a [Ea Ha]].
    destruct (rstrip_split (lstrip s)) as [b [Eb Hb]].
    exists a, b. rewrite <- Eb. auto.
  - apply rstrip_head, lstrip_head.
  - apply rstrip_tail.
Qed.

Lemma filter_none {X} (p : X -> bool) l :
  forallb (fun x => negb (p x)) l = true -> filter p l = [].
Proof.
  induction l as [|x l IH]; simpl; [reflexivity|].
  intros H. apply andb_true_iff in H as [H1 H2].
  destruct (p x); [discriminate|]. auto.
Qed.

Lemma prelude_no_work w :
  forallb (fun s => negb (is_work (snd s))) (fst (prelude w)) = true.
Proof.
  apply (only_weaken (fun s => is_setup (snd s))); [|apply prelude_setup].
  intros [l e]. destruct e; simpl; congruence.
Qed.

Lemma prelude_no_print w :
  forallb (fun s => negb (is_print (snd s))) (fst (prelude w)) = true.
Proof.
  apply (only_weaken (fun s => is_setup (snd s))); [|apply prelude_setup].
  intros [l e]. destruct e; simpl; congruence.
Qed.

Lemma prelude_path_bound w l :
  In l (lines (fst (prelude w))) -> (l <= 30)%nat.
Proof.
  intros H. apply in_map_iff in H as [s [<- Hs]].
  apply Nat.leb_le.
  exact (forallb_In _ _ _ (prelude_lines w) Hs).
Qed.

(** ** Failed acquisition *)

(** C1.  When the credential helper exits with a non-zero status, line 42
    prints the error, [get_access_token] returns [None], and the run ends
    normally after printing the failure message of line 138: nothing of
    the client, the query, the summary or the plots is executed, and the
    two messages are the only lines printed in the whole run. *)
Theorem helper_failure_skips_work w rc out :
  snd (prelude w) = Done tt ->
  spawn w coder_argv = Exited rc out ->
  rc <> 0%Z ->
  get_access_token w = ([run_step; error_step rc], Done None)
  /\ script w
     = (fst (prelude w) ++ [run_step; error_step rc; failed_step], Done tt)
  /\ forallb (fun s => negb (is_work (snd s))) (trace w) = true
  /\ filter (fun s => is_print (snd s)) (trace w)
     = [error_step rc; failed_step].
Proof.
  intros Hp Hs Hrc.
  assert (G : get_access_token w = ([run_step; error_step rc], Done None)).
  { rewrite get_access_token_run, Hs.
    destruct (Z.eqb_spec rc 0); [contradiction|reflexivity]. }
  assert (S : script w
    = (fst (prelude w) ++ [run_step; error_step rc; failed_step], Done tt)).
  { rewrite (script_run w Hp), (main_falsy w _ _ G); reflexivity. }
  unfold trace. rewrite S. simpl fst.
  repeat split; try assumption.
  - rewrite forallb_app, prelude_no_work. reflexivity.
  - rewrite filter_app.
    replace (filter _ (fst (prelude w))) with (@nil step); [reflexivity|].
    symmetry. apply filter_none, prelude_no_print.
Qed.

(** ** Successful acquisition *)



(** C9.  The handler of [get_access_token] matches [CalledProcessError]
    and nothing else.  When the helper cannot be launched the [OSError]
    leaves [get_access_token] and then the script: the run ends with that
    exception right after the call of line 34, and neither line 42 nor
    line 138 is executed. *)
Theorem launch_failure_propagates w c :
  snd (prelude w) = Done tt ->
  spawn w coder_argv = LaunchFailed c ->
  (forall e, isinstance e CCalledProcessError = true
             <-> exists rc cmd, e = CalledProcessError rc cmd)
  /\ get_access_token w = ([run_step], Raised (OSError c))
  /\ script w = (fst (prelude w) ++ [run_step], Raised (OSError c))
  /\ ~ In 42%nat (path w)
  /\ ~ In 138%nat (path w)
  /\ filter (fun s => is_print (snd s)) (trace w) = [].
Proof.
  intros Hp Hs.
  assert (G : get_access_token w = ([run_step], Raised (OSError c))).
  { rewrite get_access_token_run, Hs. reflexivity. }
  assert (S : script w = (fst (prelude w) ++ [run_step], Raised (OSError c))).
  { rewrite (script_run w Hp). unfold main.
    rewrite (bind_raised _ _ _ _ _ G). reflexivity. }
  split.
  { intros e. split.
    - destruct e; simpl; try discriminate. eauto.
    - intros [rc [cmd ->]]. reflexivity. }
  unfold path, trace. rewrite S. simpl fst.
  repeat split; try assumption.
  - unfold lines at 1. rewrite map_app, in_app_iff. intros [H|H].
    + apply prelude_path_bound in H. lia.
    + simpl in H. intuition discriminate.
  - unfold lines at 1. rewrite map_app, in_app_iff. intros [H|H].
    + apply prelude_path_bound in H. lia.
    + simpl in H. intuition discriminate.
  - rewrite filter_app.
    replace (filter _ (fst (prelude w))) with (@nil step); [reflexivity|].
    symmetry. apply filter_none, prelude_no_print.
Qed.

(** ** Plans *)

Lemma exec_none steps plan :
  exec ((None, steps) :: plan) = (steps ++ fst (exec plan), snd (exec plan)).
Proof. reflexivity. Qed.

Lemma exec_some e steps plan : exec ((Some e, steps) :: plan) = ([], Raised e).
Proof. reflexivity. Qed.

Lemma exec_app p q :
  exec (p ++ q)
  = match snd (exec p) with
    | Done _ => (fst (exec p) ++ fst (exec q), snd (exec q))
    | Raised e => (fst (exec p), Raised e)
    end.
Proof.
  induction p as [|[[e|] s] p IH]; simpl.
  - destruct (exec q); reflexivity.
  - reflexivity.
  - rewrite IH. destruct (snd (exec p)); simpl;
      rewrite ?app_assoc; reflexivity.
Qed.

Lemma exec_clear p : clear p = true -> exec p = (steps_of p, Done tt).
Proof.
  unfold clear, steps_of. induction p as [|[[e|] s] p IH]; simpl;
    [reflexivity|discriminate|].
  intros H. rewrite (IH H). reflexivity.
Qed.

Lemma exec_done p : snd (exec p) = Done tt -> clear p = true.
Proof.
  unfold clear. induction p as [|[[e|] s] p IH]; simpl;
    [reflexivity|discriminate|exact IH].
Qed.

Lemma exec_prefix p : exists rest, steps_of p = fst (exec p) ++ rest.
Proof.
  unfold steps_of. induction p as [|[[e|] s] p [rest IH]]; simpl.
  - exists []. reflexivity.
  - eexists. reflexivity.
  - exists rest. rewrite IH, app_assoc. reflexivity.
Qed.

Lemma exec_In p s : In s (fst (exec p)) -> In s (steps_of p).
Proof.
  destruct (exec_prefix p) as [rest ->]. intros H.
  apply in_or_app. auto.
Qed.

Lemma steps_of_app p q : steps_of (p ++ q) = steps_of p ++ steps_of q.
Proof. unfold steps_of. rewrite map_app, concat_app. reflexivity. Qed.

Lemma clear_app p q : clear (p ++ q) = clear p && clear q.
Proof. apply forallb_app. Qed.

(** Sequencing two computations that follow plans follows the plans in
    sequence. *)
Lemma bind_exec (m k : M unit) p q w :
  m w = exec p -> k w = exec q -> bind m (fun _ => k) w = exec (p ++ q).
Proof.
  intros Hm Hk. rewrite exec_app. unfold bind. rewrite Hm, Hk.
  destruct (exec p) as [t [[]|e]]; destruct (exec q); reflexivity.
Qed.

Lemma attempt_bind {B} err (k : unit -> M B) w :
  bind (attempt err) k w
  = match err with
    | None => k tt w
    | Some e => ([], Raised e)
    end.
Proof.
  unfold bind, attempt. destruct err; [reflexivity|].
  unfold ret. destruct (k tt w). reflexivity.
Qed.

(** ** Lines 48-135 *)

Lemma index_of_present c l :
  existsb (String.eqb c) l = true -> exists i, index_of c l = Some i.
Proof.
  induction l as [|x l IH]; simpl; [discriminate|].
  destruct (String.eqb c x); [eauto|]. simpl.
  intros H. destruct (IH H) as [i ->]. simpl. eauto.
Qed.

Lemma getitem_run df c w :
  has_column c df = true -> getitem df c w = ([], Done (column df c)).
Proof.
  unfold has_column, getitem, column. intros H.
  destruct (index_of_present _ _ H) as [i ->]. reflexivity.
Qed.

Lemma clean_run df c w :
  has_column c df = true -> clean df c w = ([], Done (cleaned df c)).
Proof.
  intros H. unfold clean, cleaned.
  rewrite (bind_done _ _ _ _ _ (getitem_run df c w H)).
  rewrite getitem_run; [reflexivity | exact H].
Qed.

Lemma summarize_closed df w : summarize df w = exec (summary_plan df).
Proof.
  unfold summarize, summary_plan. rewrite !tell_bind, attempt_bind.
  destruct (describe_raises lib df); reflexivity.
Qed.

Lemma hist_block_closed df c line ax color title xlabel w :
  (if has_column c df
   then bind (clean df c) (fun x =>
          bind (attempt (hist_raises lib x)) (fun _ =>
          bind (tell line (Hist ax x 30 color)) (fun _ =>
          bind (tell (line + 1) (SetTitle ax title)) (fun _ =>
          bind (tell (line + 2) (SetXlabel ax xlabel)) (fun _ =>
          tell (line + 3) (SetYlabel ax "Frequency"))))))
   else ret tt) w
  = exec [(hist_guard df c, hist_block df c line ax color title xlabel)].
Proof.
  unfold hist_guard, hist_block. destruct (has_column c df) eqn:H;
    [|reflexivity].
  rewrite (bind_done _ _ _ _ _ (clean_run df c w H)), attempt_bind.
  destruct (hist_raises lib (cleaned df c)); reflexivity.
Qed.

Lemma tell_exec line e w : tell line e w = exec [(None, [(line, e)])].
Proof. reflexivity. Qed.

Lemma histograms_closed df w : histograms df w = exec (hist_plan df).
Proof.
  unfold histograms, hist_plan, blocks_plan. cbn [app].
  rewrite !tell_bind. cbn [fst snd].
  rewrite exec_none.
  match goal with
  | |- (_, snd ?x) = (_, snd ?y) =>
      assert (E : x = y); [|rewrite E; reflexivity]
  end.
  apply (bind_exec _ _ [_] _ w); [apply hist_block_closed|].
  apply (bind_exec _ _ [_] _ w); [apply hist_block_closed|].
  apply (bind_exec _ _ [_] _ w); [apply hist_block_closed|].
  apply (bind_exec _ _ [_] _ w); [apply hist_block_closed|].
  reflexivity.
Qed.

Lemma for_each_run {X} (l : list X) (body : X -> M unit) (f : X -> step) w :
  (forall x w, body x w = ([f x], Done tt)) ->
  for_each l body w = (map f l, Done tt).
Proof.
  intros Hb. induction l as [|x l IH]; simpl; [reflexivity|].
  rewrite (bind_done _ _ _ _ _ (Hb x w)), IH. reflexivity.
Qed.

Lemma station_analysis_closed df w :
  station_analysis df w = exec (station_plan df).
Proof.
  unfold station_analysis, station_plan, station_chart, top_stations.
  destruct (has_column "station_number" df) eqn:H; [|reflexivity].
  rewrite (bind_done _ _ _ _ _ (getitem_run df _ w H)).
  cbv zeta. cbn [fst snd app]. rewrite tell_bind, attempt_bind.
  cbn [fst snd].
  destruct (bar_raises lib
              (firstn 10 (value_counts lib (column df "station_number"))));
    [reflexivity|].
  rewrite !tell_bind.
  rewrite (bind_done _ _ _ _ _ (getitem_run df _ w H)).
  rewrite !tell_bind.
  rewrite (for_each_run _ _ station_line);
    [|intros [i [station n]] w'; reflexivity].
  cbn [exec fst snd app]. rewrite app_nil_r. reflexivity.
Qed.

Lemma report_closed df w : report df w = exec (report_plan df).
Proof.
  unfold report, report_plan, closing_plan.
  apply bind_exec; [apply summarize_closed|].
  apply bind_exec; [apply histograms_closed|].
  apply bind_exec; [apply station_analysis_closed|].
  reflexivity.
Qed.

Lemma analysis_closed tok w : analysis tok w = analysis_result tok w.
Proof.
  unfold analysis_result.
  destruct (bigquery w tok project query) as [| |df] eqn:Q.
  - unfold analysis, query_to_dataframe, bind, tell, ask, raise.
    rewrite Q. reflexivity.
  - unfold analysis, query_to_dataframe, bind, tell, ask, raise.
    rewrite Q. reflexivity.
  - assert (E : query_to_dataframe 61 tok query w
                = ([(61%nat, Query query); (61%nat, ToDataframe)], Done df)).
    { unfold query_to_dataframe, bind, tell, ask. rewrite Q. reflexivity. }
    unfold analysis. rewrite !tell_bind.
    rewrite (bind_done _ _ _ _ _ E), report_closed. reflexivity.
Qed.

Lemma main_closed w : main w = main_result w.
Proof.
  unfold main_result. pose proof (get_access_token_run w) as G.
  destruct (spawn w coder_argv) as [rc out|c].
  - destruct (Z.eqb rc 0).
    + destruct (truthy (Some (strip out))) eqn:T.
      * rewrite (main_truthy w _ _ G T), analysis_closed. reflexivity.
      * rewrite (main_falsy w _ _ G T). reflexivity.
    + rewrite (main_falsy w _ _ G eq_refl). reflexivity.
  - unfold main. rewrite (bind_raised _ _ _ _ _ G). reflexivity.
Qed.

(** A run is the setup followed, if the setup completes, by [main]. *)
Lemma script_closed w :
  script w
  = match snd (prelude w) with
    | Done _ => (fst (prelude w) ++ fst (main_result w), snd (main_result w))
    | Raised e => (fst (prelude w), Raised e)
    end.
Proof.
  destruct (snd (prelude w)) as [[]|e] eqn:E.
  - rewrite (script_run w E), main_closed. reflexivity.
  - apply script_stops. exact E.
Qed.

Lemma summary_plan_steps df : steps_of (summary_plan df) = summary_steps df.
Proof.
  unfold steps_of, summary_plan, summary_steps. cbn [map List.concat snd].
  rewrite app_nil_r. reflexivity.
Qed.

Lemma blocks_steps df : steps_of (blocks_plan df) = hist_blocks df.
Proof.
  unfold steps_of, blocks_plan, hist_blocks. cbn [map List.concat snd].
  rewrite app_nil_r. reflexivity.
Qed.

Lemma hist_plan_steps df : steps_of (hist_plan df) = hist_steps df.
Proof.
  unfold hist_plan, hist_steps.
  change ((None, figure_open) :: blocks_plan df ++ [(None, figure_close)])
    with ([(@None exn, figure_open)] ++ blocks_plan df
            ++ [(None, figure_close)]).
  rewrite !steps_of_app, blocks_steps. reflexivity.
Qed.

Lemma closing_plan_steps df :
  steps_of (closing_plan df) = station_steps df ++ [complete_step].
Proof.
  unfold closing_plan, station_plan, station_steps. rewrite steps_of_app.
  destruct (has_column "station_number" df); [|reflexivity].
  unfold steps_of. cbn [map List.concat snd]. rewrite app_nil_r.
  reflexivity.
Qed.

(** The steps of a report in which no call raises. *)
Lemma report_steps df :
  steps_of (report_plan df)
  = summary_steps df ++ hist_steps df ++ station_steps df ++ [complete_step].
Proof.
  unfold report_plan.
  rewrite !steps_of_app, summary_plan_steps, hist_plan_steps,
    closing_plan_steps.
  reflexivity.
Qed.

(** The whole run when the token is obtained and the table reported on. *)
Lemma script_table w out df :
  snd (prelude w) = Done tt ->
  spawn w coder_argv = Exited 0 out ->
  truthy (Some (strip out)) = true ->
  bigquery w (Some (strip out)) project query = Table df ->
  script w
  = (fst (prelude w) ++ [run_step] ++ client_steps (Some (strip out))
       ++ fst (exec (report_plan df)),
     snd (exec (report_plan df))).
Proof.
  intros Hp Hs T Q. rewrite script_closed, Hp. unfold main_result.
  rewrite Hs, T. cbn [Z.eqb]. unfold analysis_result. rewrite Q.
  reflexivity.
Qed.

(** The same when, moreover, no library call raises. *)
Lemma script_success w out df :
  snd (prelude w) = Done tt ->
  spawn w coder_argv = Exited 0 out ->
  truthy (Some (strip out)) = true ->
  bigquery w (Some (strip out)) project query = Table df ->
  clear (report_plan df) = true ->
  script w
  = (fst (prelude w) ++ [run_step] ++ client_steps (Some (strip out))
       ++ summary_steps df ++ hist_steps df ++ station_steps df
       ++ [complete_step],
     Done tt).
Proof.
  intros Hp Hs T Q C. rewrite (script_table w out df Hp Hs T Q).
  rewrite (exec_clear _ C), report_steps. reflexivity.
Qed.

Lemma exec_clear_app p q :
  clear p = true ->
  exec (p ++ q) = (steps_of p ++ fst (exec q), snd (exec q)).
Proof.
  intros C. rewrite exec_app, (exec_clear p C). reflexivity.
Qed.

(** ** Column access *)

Lemma index_of_absent c l :
  existsb (String.eqb c) l = false -> index_of c l = None.
Proof.
  induction l as [|x l IH]; simpl; [reflexivity|].
  destruct (String.eqb c x); [discriminate|]. simpl.
  intros H. rewrite (IH H). reflexivity.
Qed.

Lemma getitem_missing df c w :
  has_column c df = false -> getitem df c w = ([], Raised (KeyError c)).
Proof.
  unfold has_column, getitem. intros H.
  rewrite (index_of_absent _ _ H). reflexivity.
Qed.

Lemma select_present {X} (f : X -> cell) (l : list X) :
  map f (select_rows l (notna (map f l))) = filter present (map f l).
Proof.
  induction l as [|x l IH]; simpl; [reflexivity|].
  destruct (f x) eqn:E; simpl; rewrite ?E, IH; reflexivity.
Qed.

Lemma cleaned_present df c : cleaned df c = filter present (column df c).
Proof.
  unfold cleaned, column, getitem_mask. cbn [columns rows].
  destruct (index_of c (columns df)) as [i|]; [|reflexivity].
  apply select_present.
Qed.

Lemma hist_guard_accepted df ax c :
  hist_accepts df -> In (ax, c) hist_columns -> hist_guard df c = None.
Proof.
  intros Ha Hin. unfold hist_guard.
  destruct (has_column c df) eqn:H; [|reflexivity].
  rewrite cleaned_present. exact (Ha ax c Hin H).
Qed.

Lemma blocks_clear df : hist_accepts df -> clear (blocks_plan df) = true.
Proof.
  intros Ha. unfold clear, blocks_plan. cbn [forallb fst].
  rewrite (hist_guard_accepted df (0, 0)%nat "mean_temp" Ha),
    (hist_guard_accepted df (0, 1)%nat "total_precipitation" Ha),
    (hist_guard_accepted df (1, 0)%nat "mean_wind_speed" Ha),
    (hist_guard_accepted df (1, 1)%nat "mean_visibility" Ha);
    simpl; auto 10.
Qed.

Lemma summary_clear df :
  describe_raises lib df = None -> clear (summary_plan df) = true.
Proof. intros H. unfold clear, summary_plan. simpl. rewrite H. reflexivity. Qed.

(** The report once the summary has completed. *)
Lemma report_after_summary df :
  describe_raises lib df = None ->
  exec (report_plan df)
  = (summary_steps df ++ figure_open
       ++ fst (exec (blocks_plan df ++ [(None, figure_close)]
                       ++ closing_plan df)),
     snd (exec (blocks_plan df ++ [(None, figure_close)]
                  ++ closing_plan df))).
Proof.
  intros H. unfold report_plan.
  rewrite (exec_clear_app _ _ (summary_clear df H)), summary_plan_steps.
  unfold hist_plan. cbn [app]. rewrite exec_none, <- app_assoc.
  reflexivity.
Qed.

(** The report when the summary raises. *)
Lemma report_summary_raises df e :
  describe_raises lib df = Some e ->
  exec (report_plan df) = (summary_lead df, Raised e).
Proof.
  intros H. unfold report_plan, summary_plan. cbn [app].
  rewrite exec_none, H. cbn [exec fst snd]. rewrite app_nil_r. reflexivity.
Qed.
(** ** Counting steps *)

Section AtMost.

Variable p : event -> bool.

Lemma atmost_silent {A} (m : M A) n : silent p m -> atmost p n m.
Proof. intros H w. rewrite (count_none _ _ (H w)). lia. Qed.

Lemma atmost_tell line e : atmost p 1 (tell line e).
Proof. intros w. unfold count. simpl. destruct (p e); simpl; lia. Qed.

Lemma atmost_bind_l {A B} (m : M A) (k : A -> M B) n :
  atmost p n m -> (forall a, silent p (k a)) -> atmost p n (bind m k).
Proof.
  intros Hm Hk w. unfold bind. specialize (Hm w).
  destruct (m w) as [t [a|e]]; simpl in *; [|assumption].
  specialize (Hk a w). destruct (k a w) as [t' r]. simpl in *.
  rewrite count_app, (count_none _ _ Hk). lia.
Qed.

Lemma atmost_bind_r {A B} (m : M A) (k : A -> M B) n :
  silent p m -> (forall a, atmost p n (k a)) -> atmost p n (bind m k).
Proof.
  intros Hm Hk w. unfold bind. specialize (Hm w).
  destruct (m w) as [t [a|e]]; simpl in *.
  - specialize (Hk a w). destruct (k a w) as [t' r]. simpl in *.
    rewrite count_app, (count_none _ _ Hm). lia.
  - rewrite (count_none _ _ Hm). lia.
Qed.

Lemma atmost_try_l {A} (m : M A) c (h : exn -> M A) n :
  atmost p n m -> (forall e, silent p (h e)) ->
  atmost p n (try_except m c h).
Proof.
  intros Hm Hh w. unfold try_except. specialize (Hm w).
  destruct (m w) as [t [a|e]]; simpl in *; [assumption|].
  destruct (isinstance e c); [|assumption].
  specialize (Hh e w). destruct (h e w) as [t' r]. simpl in *.
  rewrite count_app, (count_none _ _ Hh). lia.
Qed.

End AtMost.

Ltac unfold_script :=
  unfold script, main, analysis, report, prelude, get_access_token,
    summarize, histograms, station_analysis, query_to_dataframe,
    subprocess_run, check_call, import_, import_std, clean, attempt.

Ltac silent_tac :=
  unfold silent; only_tac;
  try apply only_checked; try apply only_getitem.

Lemma install_is_not_helper exe :
  argv_eqb (install_argv exe) coder_argv = false.
Proof. simpl. destruct (String.eqb exe "coder"); reflexivity. Qed.

Lemma prelude_no_helper : silent spawns_helper prelude.
Proof.
  unfold prelude, import_, import_std, check_call. silent_tac.
  apply only_tell. simpl snd. unfold spawns_helper.
  rewrite install_is_not_helper. reflexivity.
Qed.

Lemma analysis_no_helper tok : silent spawns_helper (analysis tok).
Proof. unfold_script. silent_tac. Qed.

Lemma helper_at_most_once : atmost spawns_helper 1 script.
Proof.
  unfold script. apply atmost_bind_r; [apply prelude_no_helper|].
  intros _. unfold main. apply atmost_bind_l.
  - unfold get_access_token. apply atmost_try_l.
    + apply atmost_bind_l.
      * unfold subprocess_run. apply atmost_bind_l; [apply atmost_tell|].
        intros _. silent_tac.
      * intros a. silent_tac.
    + intros e. silent_tac.
  - intros tok. destruct (truthy tok).
    + apply analysis_no_helper.
    + silent_tac.
Qed.

Ltac atmost_tac :=
  first
    [ apply atmost_silent; solve [silent_tac]
    | apply atmost_tell
    | apply atmost_bind_r; [solve [silent_tac] | intros ?; atmost_tac]
    | apply atmost_bind_l; [atmost_tac | intros ?; solve [silent_tac]]
    | apply atmost_try_l; [atmost_tac | intros ?; solve [silent_tac]]
    | match goal with
      | |- atmost _ _ (if ?b then _ else _) => destruct b; atmost_tac
      | |- atmost _ _ (match ?x with _ => _ end) => destruct x; atmost_tac
      end ].

Lemma query_at_most_once : atmost is_query 1 script.
Proof. unfold_script. atmost_tac. Qed.

Lemma fetch_at_most_once : atmost is_fetch 1 script.
Proof. unfold_script. atmost_tac. Qed.

Lemma credentials_at_most_once : atmost is_credentials 1 script.
Proof. unfold_script. atmost_tac. Qed.

Lemma query_is_fixed : only submits_query script.
Proof. unfold_script. silent_tac. Qed.

(** ** Where the steps of a run lie *)

Lemma lines_in_app lo hi t u :
  lines_in lo hi (t ++ u) = lines_in lo hi t && lines_in lo hi u.
Proof. apply forallb_app. Qed.

Lemma lines_in_weaken lo hi lo' hi' t :
  (lo' <= lo)%nat -> (hi <= hi')%nat ->
  lines_in lo hi t = true -> lines_in lo' hi' t = true.
Proof.
  intros Hlo Hhi H. unfold lines_in in *. rewrite forallb_forall in *.
  intros s Hs. specialize (H s Hs).
  apply andb_true_iff in H as [H1 H2].
  apply Nat.leb_le in H1, H2.
  apply andb_true_iff. split; apply Nat.leb_le; lia.
Qed.

Lemma prelude_lines_in w : lines_in 9 30 (fst (prelude w)) = true.
Proof.
  revert w.
  change (only (fun s => (9 <=? fst s) && (fst s <=? 30))%nat prelude).
  unfold prelude, import_, import_std, check_call.
  only_tac; apply only_checked.
Qed.

Lemma station_lines_in l : lines_in 121 133 (map station_line l) = true.
Proof. induction l as [|x l IH]; simpl; auto. Qed.

Lemma station_chart_in df : lines_in 121 133 (station_chart df) = true.
Proof.
  unfold station_chart. rewrite lines_in_app, station_lines_in. reflexivity.
Qed.

Lemma station_steps_in df : lines_in 120 133 (station_steps df) = true.
Proof.
  unfold station_steps. destruct (has_column "station_number" df);
    [|reflexivity].
  change ((120%nat, Figure 12 6) :: station_chart df)
    with ([(120%nat, Figure 12 6)] ++ station_chart df).
  rewrite lines_in_app.
  rewrite (lines_in_weaken 121 133 120 133 _ ltac:(lia) ltac:(lia)
             (station_chart_in df)).
  reflexivity.
Qed.

Lemma hist_block_in df c line ax color title xlabel :
  (84 <= line)%nat -> (line + 3 <= 111)%nat ->
  lines_in 84 111 (hist_block df c line ax color title xlabel) = true.
Proof.
  intros Hlo Hhi. unfold hist_block. destruct (has_column c df);
    [|reflexivity].
  unfold lines_in. cbn [forallb fst].
  repeat (apply andb_true_intro; split); try reflexivity;
    apply Nat.leb_le; lia.
Qed.

Lemma hist_blocks_in df : lines_in 84 111 (hist_blocks df) = true.
Proof.
  unfold hist_blocks.
  rewrite !lines_in_app, !hist_block_in by lia. reflexivity.
Qed.

Lemma hist_blocks_absent df :
  has_column "mean_temp" df = false ->
  has_column "total_precipitation" df = false ->
  has_column "mean_wind_speed" df = false ->
  has_column "mean_visibility" df = false ->
  hist_blocks df = [].
Proof.
  intros H1 H2 H3 H4. unfold hist_blocks, hist_block.
  rewrite H1, H2, H3, H4. reflexivity.
Qed.

Lemma hist_steps_in df : lines_in 78 114 (hist_steps df) = true.
Proof.
  unfold hist_steps. rewrite !lines_in_app.
  rewrite (lines_in_weaken 84 111 78 114 _ ltac:(lia) ltac:(lia)
             (hist_blocks_in df)).
  reflexivity.
Qed.

Lemma lines_in_prefix lo hi t u :
  lines_in lo hi (t ++ u) = true -> lines_in lo hi t = true.
Proof.
  rewrite lines_in_app. intros H. apply andb_true_iff in H. tauto.
Qed.

Lemma summary_steps_in df : lines_in 62 75 (summary_steps df) = true.
Proof. reflexivity. Qed.

(** Whatever raises, a report stays within lines 62-135. *)
Lemma report_lines_in df :
  lines_in 62 135 (fst (exec (report_plan df))) = true.
Proof.
  destruct (exec_prefix (report_plan df)) as [rest E].
  apply (lines_in_prefix 62 135 _ rest). rewrite <- E, report_steps.
  rewrite !lines_in_app.
  rewrite (lines_in_weaken 62 75 62 135 _ ltac:(lia) ltac:(lia)
             (summary_steps_in df)).
  rewrite (lines_in_weaken 78 114 62 135 _ ltac:(lia) ltac:(lia)
             (hist_steps_in df)).
  rewrite (lines_in_weaken 120 133 62 135 _ ltac:(lia) ltac:(lia)
             (station_steps_in df)).
  reflexivity.
Qed.

(** ** Charts in a trace *)

Lemma station_lines_no_chart l : charts (map station_line l) = [].
Proof. induction l as [|x l IH]; simpl; auto. Qed.

Lemma charts_app t u : charts (t ++ u) = charts t ++ charts u.
Proof. apply filter_app. Qed.

Lemma charts_prelude w : charts (fst (prelude w)) = [].
Proof.
  apply filter_none.
  apply (only_weaken (fun s => is_setup (snd s))); [|apply prelude_setup].
  intros [l e]. destruct e; simpl; congruence.
Qed.

Lemma in_charts s t : In s (charts t) <-> In s t /\ is_chart (snd s) = true.
Proof. apply filter_In. Qed.

Lemma count_charts p t :
  (forall e, p e = true -> is_chart e = true) ->
  count p t = count p (charts t).
Proof.
  intros Hp. unfold count, charts.
  induction t as [|s t IH]; simpl; [reflexivity|].
  destruct (p (snd s)) eqn:E.
  - rewrite (Hp _ E). simpl. rewrite E. simpl. congruence.
  - destruct (is_chart (snd s)); simpl; rewrite ?E; exact IH.
Qed.

Lemma count_In p s t :
  In s t -> p (snd s) = true -> (1 <= count p t)%nat.
Proof.
  intros Hin Hp. unfold count.
  assert (H : In s (filter (fun s => p (snd s)) t))
    by (apply filter_In; auto).
  destruct (filter (fun s => p (snd s)) t); [contradiction|simpl; lia].
Qed.

Lemma charts_report_steps df :
  charts (steps_of (report_plan df)) = chart_steps df.
Proof.
  rewrite report_steps, !charts_app.
  unfold hist_steps, hist_blocks, station_steps, station_chart, hist_block,
    chart_steps.
  rewrite !charts_app.
  destruct (has_column "mean_temp" df),
    (has_column "total_precipitation" df),
    (has_column "mean_wind_speed" df),
    (has_column "mean_visibility" df),
    (has_column "station_number" df);
    cbn [charts filter snd is_chart is_hist is_bar orb app];
    rewrite ?charts_app, ?station_lines_no_chart; reflexivity.
Qed.

Lemma count_prefix p t u : (count p t <= count p (t ++ u))%nat.
Proof. rewrite count_app. lia. Qed.

(** The steps of a run that gets its table are the setup, the client
    steps and a prefix of the steps of the report. *)
Lemma trace_table w out df :
  snd (prelude w) = Done tt ->
  spawn w coder_argv = Exited 0 out ->
  truthy (Some (strip out)) = true ->
  bigquery w (Some (strip out)) project query = Table df ->
  trace w
  = fst (prelude w) ++ [run_step] ++ client_steps (Some (strip out))
      ++ fst (exec (report_plan df))
  /\ outcome w = snd (exec (report_plan df)).
Proof.
  intros Hp Hs T Q. unfold trace, outcome.
  rewrite (script_table w out df Hp Hs T Q). split; reflexivity.
Qed.

Lemma charts_table w out df :
  snd (prelude w) = Done tt ->
  spawn w coder_argv = Exited 0 out ->
  truthy (Some (strip out)) = true ->
  bigquery w (Some (strip out)) project query = Table df ->
  charts (trace w) = charts (fst (exec (report_plan df))).
Proof.
  intros Hp Hs T Q.
  destruct (trace_table w out df Hp Hs T Q) as [-> _].
  rewrite !charts_app, charts_prelude. reflexivity.
Qed.

(** Every chart of a run is one of the charts of its table. *)
Lemma chart_in_table_run w out df s :
  snd (prelude w) = Done tt ->
  spawn w coder_argv = Exited 0 out ->
  truthy (Some (strip out)) = true ->
  bigquery w (Some (strip out)) project query = Table df ->
  is_chart (snd s) = true ->
  In s (trace w) -> In s (chart_steps df).
Proof.
  intros Hp Hs T Q Hc Hin.
  assert (H : In s (charts (trace w))) by (apply in_charts; auto).
  rewrite (charts_table w out df Hp Hs T Q) in H.
  apply in_charts in H as [H _]. apply exec_In in H.
  rewrite <- charts_report_steps. apply in_charts. auto.
Qed.

Lemma count_table_run p w out df :
  snd (prelude w) = Done tt ->
  spawn w coder_argv = Exited 0 out ->
  truthy (Some (strip out)) = true ->
  bigquery w (Some (strip out)) project query = Table df ->
  (forall e, p e = true -> is_chart e = true) ->
  (count p (trace w) <= count p (chart_steps df))%nat.
Proof.
  intros Hp Hs T Q Hpc.
  rewrite (count_charts p (trace w) Hpc), (charts_table w out df Hp Hs T Q).
  rewrite <- (count_charts p _ Hpc).
  destruct (exec_prefix (report_plan df)) as [rest E].
  rewrite <- charts_report_steps, <- (count_charts p _ Hpc), E.
  apply count_prefix.
Qed.

(** ** The query *)

(** C3.  Whatever the world, every query the script submits is the fixed
    text of lines 54-58 (SELECT * FROM `bigquery-public-data.samples.gsod`
    LIMIT 500 once laid out on one line) and there is at most one.  When
    the token is obtained exactly one query is submitted, on line 61, and
    the table the service answers with is the dataframe handed to the rest
    of the script, lines 62-135: the run continues as that code does on
    this table, beginning with its number of rows and its columns. *)
Theorem one_fixed_query w out :
  snd (prelude w) = Done tt ->
  spawn w coder_argv = Exited 0 out ->
  truthy (Some (strip out)) = true ->
  (forall w', forallb submits_query (trace w') = true
              /\ (count is_query (trace w') <= 1)%nat)
  /\ words query
     = ["SELECT"; "*"; "FROM"; "`bigquery-public-data.samples.gsod`";
        "LIMIT"; "500"]
  /\ count is_query (trace w) = 1%nat
  /\ In (61%nat, Query query) (trace w)
  /\ forall df,
       bigquery w (Some (strip out)) project query = Table df ->
       exists pre rest,
         trace w
         = pre ++ [(61%nat, Query query); (61%nat, ToDataframe)]
             ++ fst (report df w)
         /\ outcome w = snd (report df w)
         /\ count is_query pre = 0%nat
         /\ fst (report df w)
            = (62%nat, Print [Lit "✅ Retrieved "; FInt (len df);
                              Lit " rows"])
                :: (63%nat, Print [Lit "📋 Columns: "; FCols (columns df)])
                :: rest.
Proof.
  intros Hp Hs T.
  split; [|split; [reflexivity|]].
  { intros w'. split; [apply query_is_fixed | apply query_at_most_once]. }
  assert (I : In (61%nat, Query query) (trace w)).
  { unfold trace. rewrite script_closed, Hp. unfold main_result.
    rewrite Hs, T. cbn [Z.eqb fst]. apply in_or_app. right. right.
    unfold analysis_result.
    destruct (bigquery w (Some (strip out)) project query);
      cbn [fst]; simpl; auto 10. }
  split; [|split; [exact I|]].
  { apply Nat.le_antisymm; [apply query_at_most_once|].
    apply (count_In is_query (61%nat, Query query)); [exact I|reflexivity]. }
  intros df Q.
  destruct (trace_table w out df Hp Hs T Q) as [Et Eo].
  exists (fst (prelude w) ++ [run_step]
          ++ firstn 5 (client_steps (Some (strip out)))).
  rewrite report_closed, Et, Eo.
  unfold report_plan, summary_plan. cbn [app]. rewrite exec_none.
  eexists. split; [|split; [reflexivity|split]].
  - rewrite <- !app_assoc. reflexivity.
  - rewrite count_app. rewrite (count_none is_query (fst (prelude w))).
    + reflexivity.
    + apply (only_weaken (fun s => is_setup (snd s)));
        [|apply prelude_setup].
      intros [l e]. destruct e; simpl; congruence.
  - cbn [fst summary_lead app]. reflexivity.
Qed.

(** C7.  In every run, whatever the helper, the package installer and the
    service answer, the credential helper is spawned at most once, at most
    one query is submitted, its result is fetched by at most one call, and
    at most one credentials object is made: nothing is retried, refreshed
    or fetched page by page. *)
Theorem no_retry w :
  (count spawns_helper (trace w) <= 1)%nat
  /\ (count is_query (trace w) <= 1)%nat
  /\ (count is_fetch (trace w) <= 1)%nat
  /\ (count is_credentials (trace w) <= 1)%nat.
Proof.
  repeat split.
  - apply helper_at_most_once.
  - apply query_at_most_once.
  - apply fetch_at_most_once.
  - apply credentials_at_most_once.
Qed.

(** ** The summary *)

(** C4, amended.  After a successful query the summary is printed by lines
    62-75 in this order: the number of rows of the table (not its shape),
    the list of its columns, its first five rows, its dtype info and,
    unless [describe] raises, its descriptive statistics; when [describe]
    raises the run ends there.  Everything executed before lies on lines
    up to 61, everything after on lines from 78 on. *)
Theorem summary_in_order w out df :
  snd (prelude w) = Done tt ->
  spawn w coder_argv = Exited 0 out ->
  truthy (Some (strip out)) = true ->
  bigquery w (Some (strip out)) project query = Table df ->
  (exists pre post,
     trace w
     = pre
         ++ [(62, Print [Lit "✅ Retrieved ";
                         FInt (Z.of_nat (List.length (rows df)));
                         Lit " rows"]);
             (63, Print [Lit "📋 Columns: "; FCols (columns df)]);
             (66, Print [Lit (nl ++ "📊 First 5 rows:")]);
             (67, Print [FFrame {| columns := columns df;
                                   rows := firstn 5 (rows df) |}]);
             (70, Print [Lit (nl ++ "📈 Dataset info:")]);
             (71, Info df);
             (74, Print [Lit (nl ++ "🔢 Statistical summary:")])]%nat
         ++ post
     /\ lines_in 9 61 pre = true
     /\ (describe_raises lib df = None ->
         exists post',
           post = (75%nat, Print [FDescribe df]) :: post'
           /\ lines_in 78 135 post' = true)
     /\ (forall e, describe_raises lib df = Some e ->
                   post = [] /\ outcome w = Raised e))
  /\ fst (summarize df w)
     = match describe_raises lib df with
       | Some _ => summary_lead df
       | None => summary_lead df ++ [(75%nat, Print [FDescribe df])]
       end.
Proof.
  intros Hp Hs T Q.
  destruct (trace_table w out df Hp Hs T Q) as [Et Eo].
  split.
  - exists (fst (prelude w) ++ [run_step] ++ client_steps (Some (strip out))).
    destruct (describe_raises lib df) as [e|] eqn:D.
    + exists []. rewrite Et, Eo, (report_summary_raises df e D).
      cbn [fst snd]. split; [rewrite <- !app_assoc, app_nil_r; reflexivity|].
      split; [|split; [discriminate|]].
      * rewrite lines_in_app.
        rewrite (lines_in_weaken 9 30 9 61 _ ltac:(lia) ltac:(lia)
                   (prelude_lines_in w)).
        reflexivity.
      * intros e' E. inversion E; subst. auto.
    + exists (describe_step df
              :: figure_open
              ++ fst (exec (blocks_plan df ++ [(None, figure_close)]
                              ++ closing_plan df))).
      rewrite Et, (report_after_summary df D). cbn [fst].
      split; [unfold summary_steps; rewrite <- !app_assoc; reflexivity|].
      split; [|split; [|discriminate]].
      * rewrite lines_in_app.
        rewrite (lines_in_weaken 9 30 9 61 _ ltac:(lia) ltac:(lia)
                   (prelude_lines_in w)).
        reflexivity.
      * intros _. eexists. split; [reflexivity|].
        pose proof (report_lines_in df) as L.
        rewrite (report_after_summary df D) in L. cbn [fst] in L.
        rewrite !lines_in_app in L.
        apply andb_true_iff in L as [_ L].
        rewrite lines_in_app.
        destruct (exec_prefix (blocks_plan df ++ [(None, figure_close)]
                                 ++ closing_plan df)) as [rest E].
        apply andb_true_iff. split; [reflexivity|].
        apply (lines_in_prefix 78 135 _ rest). rewrite <- E.
        rewrite !steps_of_app, blocks_steps, closing_plan_steps.
        rewrite !lines_in_app.
        rewrite (lines_in_weaken 84 111 78 135 _ ltac:(lia) ltac:(lia)
                   (hist_blocks_in df)).
        rewrite (lines_in_weaken 120 133 78 135 _ ltac:(lia) ltac:(lia)
                   (station_steps_in df)).
        reflexivity.
  - rewrite summarize_closed. unfold summary_plan, summary_steps.
    destruct (describe_raises lib df); cbn [exec fst snd];
      rewrite ?app_nil_r; reflexivity.
Qed.

(** ** The charts *)

(** Case analysis on the five presence checks, closing goals of the form
    [In s (chart list) -> conclusion]. *)
Ltac split_columns df :=
  destruct (has_column "mean_temp" df) eqn:?,
    (has_column "total_precipitation" df) eqn:?,
    (has_column "mean_wind_speed" df) eqn:?,
    (has_column "mean_visibility" df) eqn:?,
    (has_column "station_number" df) eqn:?;
  simpl; intros Hin;
  repeat match type of Hin with
         | _ \/ _ => destruct Hin as [Hin|Hin]
         | False => contradiction
         | _ = _ => inversion Hin; subst; clear Hin
         end.

(** A histogram is drawn only after the figure of line 78 is made. *)
Lemma hist_after_grid w out df s :
  snd (prelude w) = Done tt ->
  spawn w coder_argv = Exited 0 out ->
  truthy (Some (strip out)) = true ->
  bigquery w (Some (strip out)) project query = Table df ->
  is_chart (snd s) = true ->
  In s (trace w) ->
  In (78%nat, Subplots 2 2 15 10) (trace w).
Proof.
  intros Hp Hs T Q Hc Hin.
  assert (H : In s (charts (trace w))) by (apply in_charts; auto).
  rewrite (charts_table w out df Hp Hs T Q) in H.
  destruct (trace_table w out df Hp Hs T Q) as [-> _].
  destruct (describe_raises lib df) as [e|] eqn:D.
  - rewrite (report_summary_raises df e D) in H. simpl in H. contradiction.
  - rewrite (report_after_summary df D). cbn [fst].
    rewrite !in_app_iff. do 3 right. right. left. left. reflexivity.
Qed.

(** C5.  In a run that gets its table, every histogram drawn is on one of
    the four axes of the 2x2 grid made on line 78, is that of the column
    fixed for the axis, which is in the table, and shows the present cells
    of that column in 30 bins; a bar chart is drawn only if the table has
    a station_number column, from its top stations.  So at most four
    histograms and one bar chart, five charts in all, are drawn.  In a run
    that ends normally each chart whose column is in the table is drawn. *)
Theorem charts_follow_columns w out df :
  snd (prelude w) = Done tt ->
  spawn w coder_argv = Exited 0 out ->
  truthy (Some (strip out)) = true ->
  bigquery w (Some (strip out)) project query = Table df ->
  (forall l ax d b c,
     In (l, Hist ax d b c) (trace w) ->
     In (78%nat, Subplots 2 2 15 10) (trace w)
     /\ b = 30%Z
     /\ exists col,
          In (ax, col)
            [((0, 0), "mean_temp"); ((0, 1), "total_precipitation");
             ((1, 0), "mean_wind_speed"); ((1, 1), "mean_visibility")]%nat
          /\ has_column col df = true
          /\ d = filter present (column df col))
  /\ (forall l d c,
        In (l, BarPlot d c) (trace w) ->
        has_column "station_number" df = true
        /\ d = firstn 10 (value_counts lib (column df "station_number")))
  /\ (count is_hist (trace w) <= 4)%nat
  /\ (count is_bar (trace w) <= 1)%nat
  /\ (count is_chart (trace w) <= 5)%nat
  /\ (outcome w = Done tt ->
      (has_column "mean_temp" df = true ->
       In (84%nat, Hist (0, 0)%nat (filter present (column df "mean_temp"))
                     30 "skyblue") (trace w))
      /\ (has_column "total_precipitation" df = true ->
          In (92%nat,
              Hist (0, 1)%nat
                (filter present (column df "total_precipitation")) 30
                "lightgreen") (trace w))
      /\ (has_column "mean_wind_speed" df = true ->
          In (100%nat,
              Hist (1, 0)%nat (filter present (column df "mean_wind_speed"))
                30 "coral") (trace w))
      /\ (has_column "mean_visibility" df = true ->
          In (108%nat,
              Hist (1, 1)%nat (filter present (column df "mean_visibility"))
                30 "gold") (trace w))
      /\ (has_column "station_number" df = true ->
          In (121%nat,
              BarPlot (firstn 10
                         (value_counts lib (column df "station_number")))
                "steelblue") (trace w))).
Proof.
  intros Hp Hs T Q.
  pose proof (fun s => chart_in_table_run w out df s Hp Hs T Q) as HI.
  split; [|split; [|split; [|split; [|split]]]].
  - intros l ax d b c Hx.
    split;
      [exact (hist_after_grid w out df (l, Hist ax d b c) Hp Hs T Q
                eq_refl Hx)|].
    apply HI in Hx; [|reflexivity].
    revert Hx. unfold chart_steps.
    split_columns df; (split; [reflexivity|]); eexists;
      (split; [simpl; auto 10|split; [assumption|apply cleaned_present]]).
  - intros l d c Hx. apply HI in Hx; [|reflexivity].
    revert Hx. unfold chart_steps, top_stations.
    split_columns df; auto.
  - etransitivity;
      [apply (count_table_run is_hist w out df Hp Hs T Q)|].
    + intros e. unfold is_chart. destruct e; simpl; intros H;
        solve [discriminate H | reflexivity].
    + unfold chart_steps, count.
      destruct (has_column "mean_temp" df),
        (has_column "total_precipitation" df),
        (has_column "mean_wind_speed" df),
        (has_column "mean_visibility" df),
        (has_column "station_number" df); simpl; lia.
  - etransitivity;
      [apply (count_table_run is_bar w out df Hp Hs T Q)|].
    + intros e. unfold is_chart. destruct e; simpl; intros H;
        solve [discriminate H | reflexivity].
    + unfold chart_steps, count.
      destruct (has_column "mean_temp" df),
        (has_column "total_precipitation" df),
        (has_column "mean_wind_speed" df),
        (has_column "mean_visibility" df),
        (has_column "station_number" df); simpl; lia.
  - etransitivity;
      [apply (count_table_run is_chart w out df Hp Hs T Q)|].
    + auto.
    + unfold chart_steps, count.
      destruct (has_column "mean_temp" df),
        (has_column "total_precipitation" df),
        (has_column "mean_wind_speed" df),
        (has_column "mean_visibility" df),
        (has_column "station_number" df); simpl; lia.
  - intros Ho.
    destruct (trace_table w out df Hp Hs T Q) as [_ Eo].
    rewrite Eo in Ho. apply exec_done in Ho.
    assert (C : charts (trace w) = chart_steps df).
    { rewrite (charts_table w out df Hp Hs T Q), (exec_clear _ Ho).
      apply charts_report_steps. }
    assert (Hto : forall s, In s (chart_steps df) -> In s (trace w)).
    { intros s Hin. rewrite <- C in Hin. apply in_charts in Hin. tauto. }
    rewrite <- !cleaned_present.
    repeat split; intros Hc; apply Hto; unfold chart_steps, top_stations;
      rewrite Hc, !in_app_iff; simpl; tauto.
Qed.

Lemma closing_lines_in df :
  lines_in 120 135 (fst (exec (closing_plan df))) = true.
Proof.
  destruct (exec_prefix (closing_plan df)) as [rest E].
  apply (lines_in_prefix 120 135 _ rest).
  rewrite <- E, closing_plan_steps, lines_in_app.
  rewrite (lines_in_weaken 120 133 120 135 _ ltac:(lia) ltac:(lia)
             (station_steps_in df)).
  reflexivity.
Qed.

Lemma no_columns_accepts df :
  has_column "mean_temp" df = false ->
  has_column "total_precipitation" df = false ->
  has_column "mean_wind_speed" df = false ->
  has_column "mean_visibility" df = false ->
  hist_accepts df.
Proof.
  intros H1 H2 H3 H4 ax c Hin Hc. simpl in Hin.
  destruct Hin as [E|[E|[E|[E|[]]]]]; inversion E; subst; congruence.
Qed.

(** C10, amended.  In every run that gets its table and completes the
    summary, the figure with the 2x2 grid is created on lines 78-79
    whatever columns the table has.  It is laid out and shown on lines
    113-114 provided [hist] raises on none of the columns that are
    present; in particular, when none of the four columns is present,
    nothing is drawn and the figure is shown with its four axes empty. *)
Theorem grid_always_shown w out df :
  snd (prelude w) = Done tt ->
  spawn w coder_argv = Exited 0 out ->
  truthy (Some (strip out)) = true ->
  bigquery w (Some (strip out)) project query = Table df ->
  describe_raises lib df = None ->
  exists pre rest,
    trace w
    = pre
        ++ [(78, Subplots 2 2 15 10);
            (79, Suptitle "Weather Data Analysis - GSOD Dataset" 16)]%nat
        ++ rest
    /\ lines_in 9 75 pre = true
    /\ lines_in 84 135 rest = true
    /\ (hist_accepts df ->
        exists mid post,
          rest = mid ++ [(113, TightLayout); (114, Show)]%nat ++ post
          /\ lines_in 84 111 mid = true
          /\ lines_in 120 135 post = true)
    /\ (has_column "mean_temp" df = false ->
        has_column "total_precipitation" df = false ->
        has_column "mean_wind_speed" df = false ->
        has_column "mean_visibility" df = false ->
        (exists post,
           rest = [(113, TightLayout); (114, Show)]%nat ++ post
           /\ lines_in 120 135 post = true)
        /\ count is_hist (trace w) = 0%nat).
Proof.
  intros Hp Hs T Q D.
  destruct (trace_table w out df Hp Hs T Q) as [Et _].
  exists (fst (prelude w) ++ [run_step] ++ client_steps (Some (strip out))
            ++ summary_steps df),
    (fst (exec (blocks_plan df ++ [(None, figure_close)]
                  ++ closing_plan df))).
  assert (A : hist_accepts df ->
    fst (exec (blocks_plan df ++ [(None, figure_close)] ++ closing_plan df))
    = hist_blocks df ++ figure_close ++ fst (exec (closing_plan df))).
  { intros Ha. rewrite (exec_clear_app _ _ (blocks_clear df Ha)).
    cbn [app fst]. rewrite exec_none, blocks_steps. reflexivity. }
  split; [|split; [|split; [|split]]].
  - rewrite Et, (report_after_summary df D). cbn [fst].
    unfold figure_open. rewrite <- !app_assoc. reflexivity.
  - rewrite lines_in_app.
    rewrite (lines_in_weaken 9 30 9 75 _ ltac:(lia) ltac:(lia)
               (prelude_lines_in w)).
    reflexivity.
  - destruct (exec_prefix (blocks_plan df ++ [(None, figure_close)]
                             ++ closing_plan df)) as [rest E].
    apply (lines_in_prefix 84 135 _ rest). rewrite <- E.
    rewrite !steps_of_app, blocks_steps, closing_plan_steps.
    rewrite !lines_in_app.
    rewrite (lines_in_weaken 84 111 84 135 _ ltac:(lia) ltac:(lia)
               (hist_blocks_in df)).
    rewrite (lines_in_weaken 120 133 84 135 _ ltac:(lia) ltac:(lia)
               (station_steps_in df)).
    reflexivity.
  - intros Ha. exists (hist_blocks df), (fst (exec (closing_plan df))).
    split; [exact (A Ha)|].
    split; [apply hist_blocks_in | apply closing_lines_in].
  - intros H1 H2 H3 H4. split.
    + exists (fst (exec (closing_plan df))).
      rewrite (A (no_columns_accepts df H1 H2 H3 H4)).
      rewrite (hist_blocks_absent df H1 H2 H3 H4).
      split; [reflexivity | apply closing_lines_in].
    + apply Nat.le_0_r.
      etransitivity;
        [apply (count_table_run is_hist w out df Hp Hs T Q)|].
      * intros e. unfold is_chart. destruct e; simpl; intros H;
          solve [discriminate H | reflexivity].
      * unfold chart_steps, count. rewrite H1, H2, H3, H4.
        destruct (has_column "station_number" df); simpl; lia.
Qed.

(** ** The path of a run *)

Lemma lines_app t u : lines (t ++ u) = lines t ++ lines u.
Proof. apply map_app. Qed.

Lemma prelude_path w :
  snd (prelude w) = Done tt ->
  lines (fst (prelude w))
  = ([9; 10; 14] ++ (if installs w then [16] else [])
     ++ [17; 18; 19; 20; 21; 22; 23; 24; 25; 28; 29; 30])%nat.
Proof.
  unfold installs, prelude, import_, import_std, check_call, checked,
    try_except, bind, tell, ask, ret, raise.
  destruct (import_ok w 14); simpl.
  - destruct (import_ok w 20); simpl; [|discriminate].
    destruct (import_ok w 21); simpl; [|discriminate].
    destruct (import_ok w 22); simpl; [|discriminate].
    destruct (import_ok w 23); simpl; [|discriminate].
    reflexivity.
  - destruct (spawn w (install_argv (executable w))) as [rc o|c]; simpl;
      [|discriminate].
    destruct (Z.eqb rc 0); simpl; [|discriminate].
    destruct (import_ok w 19); simpl; [|discriminate].
    destruct (import_ok w 20); simpl; [|discriminate].
    destruct (import_ok w 21); simpl; [|discriminate].
    destruct (import_ok w 22); simpl; [|discriminate].
    destruct (import_ok w 23); simpl; [|discriminate].
    reflexivity.
Qed.

Lemma outcome_prelude w : outcome w = Done tt -> snd (prelude w) = Done tt.
Proof.
  unfold outcome. destruct (snd (prelude w)) as [[]|e] eqn:E; [reflexivity|].
  rewrite (script_stops w e E). discriminate.
Qed.

Lemma station_lines_path l :
  lines (map station_line l) = repeat 133%nat (List.length l).
Proof. induction l as [|x l IH]; simpl; congruence. Qed.

Lemma hist_steps_path df :
  lines (hist_steps df)
  = ([78; 79]
     ++ (if has_column "mean_temp" df then [84; 85; 86; 87] else [])
     ++ (if has_column "total_precipitation" df then [92; 93; 94; 95] else [])
     ++ (if has_column "mean_wind_speed" df then [100; 101; 102; 103] else [])
     ++ (if has_column "mean_visibility" df then [108; 109; 110; 111] else [])
     ++ [113; 114])%nat.
Proof.
  unfold hist_steps, hist_blocks, hist_block.
  destruct (has_column "mean_temp" df),
    (has_column "total_precipitation" df),
    (has_column "mean_wind_speed" df),
    (has_column "mean_visibility" df); reflexivity.
Qed.

Lemma station_steps_path df :
  lines (station_steps df)
  = (if has_column "station_number" df
     then [120; 121; 122; 123; 124; 125; 126; 127; 128; 130; 131]
          ++ repeat 133 (List.length (enumerate (top_stations df) 1))
     else [])%nat.
Proof.
  unfold station_steps, station_chart.
  destruct (has_column "station_number" df); [|reflexivity].
  change (lines ((120%nat, Figure 12 6) :: ?t))
    with (120%nat :: lines t).
  rewrite lines_app, station_lines_path. reflexivity.
Qed.

(** The path of a run that ends normally is a function of its decisions. *)
Lemma path_normal w :
  outcome w = Done tt ->
  path w = expected_path (installs w) (helper_rejected w) (guard w)
             (presence w) (stations_listed w).
Proof.
  intros Ho. pose proof (outcome_prelude w Ho) as Hp.
  unfold path, trace. unfold outcome in Ho.
  rewrite script_closed, Hp in *. cbn [fst snd] in *.
  rewrite lines_app, (prelude_path w Hp).
  unfold expected_path, presence, stations_listed, table_of, guard,
    token_of, helper_rejected.
  rewrite <- !app_assoc. do 3 f_equal.
  rewrite get_access_token_run. unfold main_result in *.
  destruct (spawn w coder_argv) as [rc out|c]; [|discriminate].
  destruct (Z.eqb rc 0) eqn:Hrc; [|reflexivity].
  cbn [snd negb].
  destruct (truthy (Some (strip out))) eqn:T; [|reflexivity].
  unfold analysis_result in *. cbn [fst snd] in *.
  destruct (bigquery w (Some (strip out)) project query) as [| |df];
    try discriminate.
  cbn [fst snd] in *. apply exec_done in Ho.
  rewrite (exec_clear _ Ho), report_steps.
  change (run_step :: ?t) with ([run_step] ++ t). cbn [fst].
  rewrite !lines_app, hist_steps_path, station_steps_path.
  cbn [map nth checked_columns].
  destruct (has_column "station_number" df);
    rewrite <- !app_assoc; reflexivity.
Qed.

(** ** Branching *)

(** C6, amended.  For runs that end without an uncaught exception, the
    lines of the effects performed (imports, process calls, prints, client,
    query and plotting calls), in order, are fixed by these decisions: whether
    the import of line 14 fails (the install branch of line 16), whether
    the helper exits with a non-zero status (the handler of lines 41-43),
    the guard on the token of line 47, the presence checks on the five
    fixed column names, and the number of stations the loop of line 132
    lists. *)
Theorem path_follows_decisions w1 w2 :
  outcome w1 = Done tt ->
  outcome w2 = Done tt ->
  installs w1 = installs w2 ->
  helper_rejected w1 = helper_rejected w2 ->
  guard w1 = guard w2 ->
  presence w1 = presence w2 ->
  stations_listed w1 = stations_listed w2 ->
  path w1 = path w2.
Proof.
  intros H1 H2 Hi Hr Hg Hc Hk.
  rewrite (path_normal w1 H1), (path_normal w2 H2), Hi, Hr, Hg, Hc, Hk.
  reflexivity.
Qed.

(** ** Runs in every world *)

Lemma main_no_install : silent is_install main.
Proof. unfold_script. silent_tac. Qed.

Lemma filter_app_none {X} (p : X -> bool) t u :
  forallb (fun x => negb (p x)) u = true ->
  filter p (t ++ u) = filter p t.
Proof.
  intros H. rewrite filter_app, (filter_none p u H). apply app_nil_r.
Qed.

Lemma prelude_installs w :
  filter (fun s => is_install (snd s)) (fst (prelude w))
  = if import_ok w 14 then [] else [install_step w].
Proof.
  unfold install_step, prelude, import_, import_std, check_call, checked,
    try_except, bind, tell, ask, ret, raise.
  destruct (import_ok w 14); simpl.
  - destruct (import_ok w 20); simpl; [|reflexivity].
    destruct (import_ok w 21); simpl; [|reflexivity].
    destruct (import_ok w 22); simpl; [|reflexivity].
    destruct (import_ok w 23); simpl; reflexivity.
  - destruct (spawn w (install_argv (executable w))) as [rc o|c]; simpl;
      [|reflexivity].
    destruct (Z.eqb rc 0); simpl; [|reflexivity].
    destruct (import_ok w 19); simpl; [|reflexivity].
    destruct (import_ok w 20); simpl; [|reflexivity].
    destruct (import_ok w 21); simpl; [|reflexivity].
    destruct (import_ok w 22); simpl; [|reflexivity].
    destruct (import_ok w 23); simpl; reflexivity.
Qed.

(** X1.  In every run, whatever happens later, the package installer is
    called exactly when the import of pandas on line 14 fails, and then
    once, as [sys.executable -m pip install --break-system-packages ...]
    with the six packages of line 16. *)
Theorem install_exactly_when_missing w :
  filter (fun s => is_install (snd s)) (trace w)
  = (if import_ok w 14 then [] else [install_step w])
  /\ install_argv (executable w)
     = [executable w; "-m"; "pip"; "install"; "--break-system-packages";
        "pandas"; "matplotlib"; "seaborn"; "google-cloud-bigquery";
        "db-dtypes"; "pyarrow"].
Proof.
  split; [|reflexivity].
  rewrite <- prelude_installs. unfold trace, script, bind.
  pose proof (main_no_install w) as Hm.
  destruct (prelude w) as [t [[]|e]]; simpl; [|reflexivity].
  destruct (main w) as [t' r]. simpl in *.
  apply filter_app_none. exact Hm.
Qed.

(** X2.  When pandas is missing and the installer exits with a non-zero
    status, the [CalledProcessError] raised in the handler of line 15 is
    not caught: the run ends there, after lines 9, 10, 14 and 16, without
    any further import and without calling the credential helper. *)
Theorem install_failure_aborts w rc out :
  import_ok w 14 = false ->
  spawn w (install_argv (executable w)) = Exited rc out ->
  rc <> 0%Z ->
  script w
  = (install_steps w,
     Raised (CalledProcessError rc (install_argv (executable w)))).
Proof.
  intros Hi Hs Hrc.
  assert (P : prelude w
    = (install_steps w,
       Raised (CalledProcessError rc (install_argv (executable w))))).
  { unfold install_steps, install_step, prelude, import_, import_std,
      check_call, checked, try_except, bind, tell, ask, ret, raise.
    rewrite Hi. simpl. rewrite Hs.
    destruct (Z.eqb_spec rc 0); [contradiction|reflexivity]. }
  rewrite script_closed, P. reflexivity.
Qed.

Lemma unguarded_import_raises w line :
  import_ok w 14 = true ->
  In line [20; 21; 22; 23]%nat ->
  import_ok w line = false ->
  snd (prelude w) = Raised ImportError.
Proof.
  intros H14 Hin Hl.
  unfold prelude, import_, import_std, check_call, checked,
    try_except, bind, tell, ask, ret, raise.
  rewrite H14. simpl.
  destruct (import_ok w 20) eqn:H20; simpl; [|reflexivity].
  destruct (import_ok w 21) eqn:H21; simpl; [|reflexivity].
  destruct (import_ok w 22) eqn:H22; simpl; [|reflexivity].
  destruct (import_ok w 23) eqn:H23; simpl; [|reflexivity].
  simpl in Hin. destruct Hin as [<-|[<-|[<-|[<-|[]]]]]; congruence.
Qed.

(** X3.  Only the import of line 14 is guarded.  When pandas is there but
    one of the imports of lines 20-23 fails, the [ImportError] ends the
    run: nothing but setup steps has been executed, the credential helper
    is not called and nothing is printed. *)
Theorem unguarded_import_aborts w line :
  import_ok w 14 = true ->
  In line [20; 21; 22; 23]%nat ->
  import_ok w line = false ->
  outcome w = Raised ImportError
  /\ forallb (fun s => is_setup (snd s)) (trace w) = true
  /\ lines_in 9 line (trace w) = true
  /\ count spawns_helper (trace w) = 0%nat
  /\ filter (fun s => is_print (snd s)) (trace w) = [].
Proof.
  intros H14 Hin Hl.
  pose proof (unguarded_import_raises w line H14 Hin Hl) as P.
  unfold outcome, trace. rewrite script_closed, P. cbn [fst snd].
  split; [reflexivity|]. split; [apply prelude_setup|]. split.
  - revert P.
    unfold lines_in, prelude, import_, import_std, check_call, checked,
      try_except, bind, tell, ask, ret, raise.
    rewrite H14. simpl.
    simpl in Hin.
    destruct (import_ok w 20) eqn:H20; simpl;
      [|destruct Hin as [<-|[<-|[<-|[<-|[]]]]]; reflexivity].
    destruct (import_ok w 21) eqn:H21; simpl;
      [|destruct Hin as [<-|[<-|[<-|[<-|[]]]]];
        try reflexivity; congruence].
    destruct (import_ok w 22) eqn:H22; simpl;
      [|destruct Hin as [<-|[<-|[<-|[<-|[]]]]];
        try reflexivity; congruence].
    destruct (import_ok w 23) eqn:H23; simpl;
      [|destruct Hin as [<-|[<-|[<-|[<-|[]]]]];
        try reflexivity; congruence].
    discriminate.
  - split.
    + apply count_none, prelude_no_helper.
    + apply filter_none, prelude_no_print.
Qed.

(** X4.  Nothing guards the query.  When the token is obtained but the
    service does not answer with a table, the exception ends the run on
    line 61: the three progress messages of lines 48, 51 and 60 are all
    that is printed, and there is no summary, no figure, no completion
    message and no failure message. *)
Theorem query_failure_aborts w out :
  snd (prelude w) = Done tt ->
  spawn w coder_argv = Exited 0 out ->
  truthy (Some (strip out)) = true ->
  (forall df, bigquery w (Some (strip out)) project query <> Table df) ->
  outcome w = Raised ApiError
  /\ In (61%nat, Query query) (trace w)
  /\ lines_in 9 61 (trace w) = true
  /\ filter (fun s => is_print (snd s)) (trace w)
     = [(48%nat, Print [Lit "✅ Access token obtained"]);
        (51%nat, Print [Lit "✅ BigQuery client ready"]);
        (60%nat, Print [Lit "🔍 Executing BigQuery query..."])].
Proof.
  intros Hp Hs T Q.
  unfold outcome, trace. rewrite script_closed, Hp. unfold main_result.
  rewrite Hs, T. cbn [Z.eqb fst snd]. unfold analysis_result.
  assert (L : lines_in 9 61 (fst (prelude w)) = true)
    by exact (lines_in_weaken 9 30 9 61 _ ltac:(lia) ltac:(lia)
                (prelude_lines_in w)).
  assert (F : filter (fun s : step => is_print (snd s)) (fst (prelude w))
              = []) by (apply filter_none, prelude_no_print).
  destruct (bigquery w (Some (strip out)) project query) as [| |df] eqn:E;
    [| |exfalso; exact (Q df eq_refl)];
    cbn [fst snd]; (split; [reflexivity|]);
    (split; [apply in_or_app; right; simpl; auto 10|]);
    rewrite lines_in_app, L, filter_app; unfold step in *; rewrite F;
    split; reflexivity.
Qed.

Lemma station_lines_no_token l :
  filter (fun s => uses_token (snd s)) (map station_line l) = [].
Proof. induction l as [|x l IH]; simpl; auto. Qed.

Lemma filter_prefix_nil {X} (p : X -> bool) t u :
  filter p (t ++ u) = [] -> filter p t = [].
Proof.
  rewrite filter_app. intros H. apply app_eq_nil in H. tauto.
Qed.

Lemma report_no_token df :
  filter (fun s => uses_token (snd s)) (fst (exec (report_plan df))) = [].
Proof.
  destruct (exec_prefix (report_plan df)) as [rest E].
  apply (filter_prefix_nil _ _ rest). rewrite <- E, report_steps.
  rewrite !filter_app.
  replace (filter _ (hist_steps df)) with (@nil step).
  - replace (filter _ (station_steps df)) with (@nil step); [reflexivity|].
    unfold station_steps, station_chart.
    destruct (has_column "station_number" df); [|reflexivity].
    cbn [filter snd uses_token].
    rewrite filter_app, station_lines_no_token. reflexivity.
  - unfold hist_steps, hist_blocks, hist_block.
    destruct (has_column "mean_temp" df),
      (has_column "total_precipitation" df),
      (has_column "mean_wind_speed" df),
      (has_column "mean_visibility" df); reflexivity.
Qed.

Lemma analysis_token_steps tok w :
  filter (fun s => uses_token (snd s)) (fst (analysis_result tok w))
  = [(49%nat, Credentials tok); (50%nat, Client tok project)].
Proof.
  unfold analysis_result.
  destruct (bigquery w tok project query) as [| |df]; try reflexivity.
  cbn [fst]. rewrite filter_app.
  replace (filter _ (fst (exec (report_plan df)))) with (@nil step)
    by (symmetry; apply report_no_token).
  reflexivity.
Qed.

Lemma prelude_no_token w :
  filter (fun s => uses_token (snd s)) (fst (prelude w)) = [].
Proof.
  apply filter_none.
  apply (only_weaken (fun s => is_setup (snd s))); [|apply prelude_setup].
  intros [l e]. destruct e; simpl; congruence.
Qed.

(** X5.  In every run the token reaches at most one credentials object
    and one client, in that order on lines 49 and 50; when it does, the
    helper exited with status 0, the token is its output stripped, it is
    not empty and has no whitespace at either end, and the client is bound
    to the project coder-vertex-demos. *)
Theorem token_use w :
  filter (fun s => uses_token (snd s)) (trace w) = []
  \/ exists out,
       spawn w coder_argv = Exited 0 out
       /\ strip out <> EmptyString
       /\ starts_with_space (strip out) = false
       /\ ends_with_space (strip out) = false
       /\ filter (fun s => uses_token (snd s)) (trace w)
          = [(49%nat, Credentials (Some (strip out)));
             (50%nat, Client (Some (strip out)) "coder-vertex-demos")].
Proof.
  unfold trace. rewrite script_closed.
  destruct (snd (prelude w)) as [[]|e]; cbn [fst];
    [|left; apply prelude_no_token].
  rewrite filter_app.
  replace (filter _ (fst (prelude w))) with (@nil step)
    by (symmetry; apply prelude_no_token).
  unfold main_result.
  destruct (spawn w coder_argv) as [rc out|c] eqn:Hs; [|left; reflexivity].
  destruct (Z.eqb_spec rc 0) as [->|Hrc]; [|left; reflexivity].
  destruct (truthy (Some (strip out))) eqn:T; [|left; reflexivity].
  right. exists out. split; [reflexivity|].
  destruct (strip_spec out) as (_ & Hh & Ht).
  repeat split; try assumption.
  - intros E. rewrite E in T. discriminate.
  - cbn [fst app]. cbn [filter snd run_step uses_token].
    apply analysis_token_steps.
Qed.

(** X6.  A run that ends normally ends with exactly one of the two final
    messages: the completion message of line 135 when the guard of line 47
    held, the failure message of line 138 when it did not.  Neither line
    is executed before. *)
Theorem normal_run_ends_with_message w :
  outcome w = Done tt ->
  exists t,
    trace w = t ++ [if guard w then complete_step else failed_step]
    /\ lines_in 9 133 t = true.
Proof.
  unfold outcome, trace, guard, token_of.
  rewrite script_closed, get_access_token_run.
  destruct (snd (prelude w)) as [[]|e]; [|discriminate].
  cbn [fst snd]. unfold main_result.
  assert (L : lines_in 9 133 (fst (prelude w)) = true)
    by exact (lines_in_weaken 9 30 9 133 _ ltac:(lia) ltac:(lia)
                (prelude_lines_in w)).
  destruct (spawn w coder_argv) as [rc out|c]; [|discriminate].
  destruct (Z.eqb rc 0).
  - cbn [snd]. destruct (truthy (Some (strip out))) eqn:T.
    + unfold analysis_result.
      destruct (bigquery w (Some (strip out)) project query) as [| |df];
        cbn [fst snd]; try discriminate.
      intros Ho. apply exec_done in Ho.
      rewrite (exec_clear _ Ho), report_steps. cbn [fst].
      exists (fst (prelude w) ++ run_step :: client_steps (Some (strip out))
              ++ summary_steps df ++ hist_steps df ++ station_steps df).
      split.
      * rewrite <- !app_assoc. cbn [app]. rewrite <- !app_assoc.
        reflexivity.
      * rewrite lines_in_app, L.
        change (run_step :: client_steps (Some (strip out))
                  ++ summary_steps df ++ hist_steps df ++ station_steps df)
          with (([run_step] ++ client_steps (Some (strip out))
                   ++ summary_steps df)
                  ++ hist_steps df ++ station_steps df).
        rewrite !lines_in_app.
        rewrite (lines_in_weaken 78 114 9 133 _ ltac:(lia) ltac:(lia)
                   (hist_steps_in df)).
        rewrite (lines_in_weaken 120 133 9 133 _ ltac:(lia) ltac:(lia)
                   (station_steps_in df)).
        reflexivity.
    + intros _. exists (fst (prelude w) ++ [run_step]).
      split; [rewrite <- app_assoc; reflexivity|].
      rewrite lines_in_app, L. reflexivity.
  - intros _. cbn [snd truthy].
    exists (fst (prelude w) ++ [run_step; error_step rc]).
    split; [rewrite <- app_assoc; reflexivity|].
    rewrite lines_in_app, L. reflexivity.
Qed.

(** ** Column access *)

(** X7.  [df[df[c].notna()][c]] is the column [c] with its missing cells
    dropped and nothing else changed: the cells that hold a value, in row
    order; so it holds no missing cell and is no longer than the table.
    On a table without the column the expression raises [KeyError] at its
    first lookup. *)
Theorem clean_drops_missing_cells df c w :
  clean df c w
  = (if has_column c df
     then ([], Done (filter present (column df c)))
     else ([], Raised (KeyError c)))
  /\ Forall (fun x => x <> None) (filter present (column df c))
  /\ (Z.of_nat (List.length (filter present (column df c))) <= len df)%Z.
Proof.
  split; [|split].
  - destruct (has_column c df) eqn:H.
    + rewrite (clean_run df c w H), cleaned_present. reflexivity.
    + unfold clean.
      rewrite (bind_raised _ _ _ _ _ (getitem_missing df c w H)).
      reflexivity.
  - apply Forall_forall. intros x Hx. apply filter_In in Hx as [_ Hx].
    destruct x; [discriminate|discriminate Hx].
  - unfold len, column. apply inj_le.
    destruct (index_of c (columns df)) as [i|]; [|apply Nat.le_0_l].
    pose proof (filter_length_le present
                  (map (fun r => nth i r None) (rows df))) as H.
    rewrite length_map in H. exact H.
Qed.

(** ** The token *)

Lemma lstrip_clean s : starts_with_space s = false -> lstrip s = s.
Proof. destruct s as [|c s]; simpl; [reflexivity|]. intros ->. reflexivity. Qed.

Lemma rstrip_clean s : ends_with_space s = false -> rstrip s = s.
Proof.
  induction s as [|c s IH]; simpl; [reflexivity|].
  destruct s as [|d s'].
  - simpl. intros ->. reflexivity.
  - intros H. rewrite (IH H). reflexivity.
Qed.

Lemma strip_fixpoint s :
  strip s = s <-> starts_with_space s = false /\ ends_with_space s = false.
Proof.
  split.
  - intros E. destruct (strip_spec s) as (_ & H1 & H2).
    rewrite E in H1, H2. auto.
  - intros [H1 H2]. unfold strip.
    rewrite (lstrip_clean s H1). apply rstrip_clean, H2.
Qed.

(** X9.  When the helper exits with status 0, [get_access_token] returns
    its output unchanged exactly when the output neither begins nor ends
    with whitespace; whitespace inside the output is never touched, and
    stripping an already stripped token changes nothing. *)
Theorem token_verbatim_iff_clean w out :
  spawn w coder_argv = Exited 0 out ->
  (snd (get_access_token w) = Done (Some out)
   <-> starts_with_space out = false /\ ends_with_space out = false)
  /\ strip (strip out) = strip out.
Proof.
  intros Hs. rewrite get_access_token_run, Hs. cbn [Z.eqb snd]. split.
  - rewrite <- strip_fixpoint. split; [congruence|intros ->; reflexivity].
  - apply strip_fixpoint. destruct (strip_spec out) as (_ & H1 & H2). auto.
Qed.

Lemma main_result_runs_helper w : In run_step (fst (main_result w)).
Proof.
  unfold main_result.
  destruct (spawn w coder_argv) as [rc out|c]; [|left; reflexivity].
  destruct (Z.eqb rc 0); [|left; reflexivity].
  destruct (truthy (Some (strip out))); left; reflexivity.
Qed.

(** X10.  The credential helper is called exactly once in every run whose
    setup (lines 9-30) completes, whatever the helper and the service then
    answer, and not at all in a run that the setup ends. *)
Theorem helper_once_after_setup w :
  count spawns_helper (trace w)
  = match snd (prelude w) with
    | Done _ => 1%nat
    | Raised _ => 0%nat
    end.
Proof.
  pose proof (helper_at_most_once w) as Hle.
  fold (trace w) in Hle. revert Hle.
  unfold trace. rewrite script_closed.
  destruct (snd (prelude w)) as [[]|e]; cbn [fst]; intros Hle.
  - apply Nat.le_antisymm; [exact Hle|].
    apply (count_In spawns_helper run_step); [|reflexivity].
    apply in_or_app. right. apply main_result_runs_helper.
  - apply count_none, prelude_no_helper.
Qed.

(** ** The station listing *)

Lemma enumerate_length {A} (l : list A) start :
  List.length (enumerate l start) = List.length l.
Proof.
  revert start. induction l as [|x l IH]; intros start; simpl;
    [reflexivity|]. rewrite IH. reflexivity.
Qed.

Lemma enumerate_nth {A} (l : list A) start j :
  nth_error (enumerate l start) j
  = option_map (fun x => ((start + Z.of_nat j)%Z, x)) (nth_error l j).
Proof.
  revert start j. induction l as [|x l IH]; intros start j.
  - destruct j; reflexivity.
  - destruct j as [|j]; simpl.
    + rewrite Z.add_0_r. reflexivity.
    + rewrite IH. destruct (nth_error l j); simpl; [|reflexivity].
      do 2 f_equal. lia.
Qed.

Lemma listing_station_lines l : listing (map station_line l) = map station_line l.
Proof.
  unfold listing. induction l as [|x l IH]; simpl; [reflexivity|].
  rewrite IH. reflexivity.
Qed.

Lemma listing_station_chart df :
  listing (station_chart df)
  = map station_line (enumerate (top_stations df) 1).
Proof.
  unfold station_chart, listing. rewrite filter_app.
  change (filter (fun s : step => (fst s =? 133)%nat)
            (map station_line (enumerate (top_stations df) 1)))
    with (listing (map station_line (enumerate (top_stations df) 1))).
  rewrite listing_station_lines. reflexivity.
Qed.

Lemma station_plan_clear df :
  has_column "station_number" df = true ->
  bar_raises lib (top_stations df) = None ->
  exec (station_plan df) = ((120%nat, Figure 12 6) :: station_chart df,
                            Done tt).
Proof.
  intros H Hb. unfold station_plan. rewrite H.
  rewrite exec_none. unfold exec. rewrite Hb. cbn [fst snd app].
  rewrite app_nil_r. reflexivity.
Qed.

(** X11.  When the table has a station_number column and the bar plot
    does not raise, the listing printed by the loop of lines 132-133 has
    one line per station of the bar chart of line 121, in the same order,
    numbered from 1 without gaps, and at most ten lines. *)
Theorem listing_follows_bar_chart df w :
  has_column "station_number" df = true ->
  bar_raises lib (top_stations df) = None ->
  In (121%nat, BarPlot (top_stations df) "steelblue")
     (fst (station_analysis df w))
  /\ List.length (listing (fst (station_analysis df w)))
     = List.length (top_stations df)
  /\ (List.length (listing (fst (station_analysis df w))) <= 10)%nat
  /\ forall j station n,
       nth_error (top_stations df) j = Some (station, n) ->
       nth_error (listing (fst (station_analysis df w))) j
       = Some (133%nat,
               Print [FIntW 2 (1 + Z.of_nat j); Lit ". Station ";
                      FVal station; Lit ": "; FInt (Z.of_nat n);
                      Lit " records"]).
Proof.
  intros H Hb.
  rewrite station_analysis_closed, (station_plan_clear df H Hb). cbn [fst].
  change (listing ((120%nat, Figure 12 6) :: station_chart df))
    with (listing (station_chart df)).
  rewrite listing_station_chart.
  split; [unfold station_chart; simpl; auto|].
  rewrite length_map, enumerate_length.
  split; [reflexivity|]. split.
  - unfold top_stations. apply firstn_le_length.
  - intros j station n E.
    rewrite nth_error_map, enumerate_nth, E. reflexivity.
Qed.

(** ** What the token can influence *)

Lemma prelude_ext w1 w2 :
  (forall l, import_ok w1 l = import_ok w2 l) ->
  executable w1 = executable w2 ->
  spawn w1 (install_argv (executable w1))
  = spawn w2 (install_argv (executable w2)) ->
  prelude w1 = prelude w2.
Proof.
  intros Hi He Hs.
  unfold prelude, import_, import_std, check_call, checked,
    try_except, bind, tell, ask, ret, raise.
  rewrite Hs, He.
  repeat (simpl; rewrite ?Hi;
          match goal with
          | |- context [import_ok w2 ?l] => destruct (import_ok w2 l)
          | |- context [spawn w2 ?a] => destruct (spawn w2 a)
          | |- context [Z.eqb ?rc 0] => destruct (Z.eqb rc 0)
          end);
    reflexivity.
Qed.

(** X13.  The value of the token shows nowhere but in the credentials
    object and the client.  Two runs that differ only in the token the
    helper returns, and in which the service gives the same answer,
    execute the same steps apart from those of lines 49 and 50, print the
    same lines and end the same way: the token is never printed. *)
Theorem token_only_reaches_client w1 w2 out1 out2 :
  (forall l, import_ok w1 l = import_ok w2 l) ->
  executable w1 = executable w2 ->
  spawn w1 (install_argv (executable w1))
  = spawn w2 (install_argv (executable w2)) ->
  spawn w1 coder_argv = Exited 0 out1 ->
  spawn w2 coder_argv = Exited 0 out2 ->
  truthy (Some (strip out1)) = true ->
  truthy (Some (strip out2)) = true ->
  bigquery w1 (Some (strip out1)) project query
  = bigquery w2 (Some (strip out2)) project query ->
  filter (fun s => negb (uses_token (snd s))) (trace w1)
  = filter (fun s => negb (uses_token (snd s))) (trace w2)
  /\ filter (fun s => is_print (snd s)) (trace w1)
     = filter (fun s => is_print (snd s)) (trace w2)
  /\ outcome w1 = outcome w2.
Proof.
  intros Hi He Hp H1 H2 T1 T2 Q.
  unfold trace, outcome. rewrite !script_closed.
  rewrite (prelude_ext w1 w2 Hi He Hp).
  destruct (snd (prelude w2)) as [[]|e]; [|repeat split].
  unfold main_result. rewrite H1, H2, T1, T2. cbn [Z.eqb fst snd].
  unfold analysis_result. rewrite Q.
  destruct (bigquery w2 (Some (strip out2)) project query) as [| |df];
    cbn [fst snd]; rewrite !filter_app; repeat split.
Qed.



End Script.

(** ** The claims that fail, on sample runs

    The runs below use [sample_library]. *)


(** C4, as the claim states it, fails: the first line of the summary is
    the same for a table of three rows and two columns and for one of
    three rows and one column, so it does not give the shape. *)
Lemma size_line_is_not_shape :
  ~ (forall lib df1 df2 w,
        nth_error (fst (summarize lib df1 w)) 0
        = nth_error (fst (summarize lib df2 w)) 0 ->
        shape df1 = shape df2).
Proof.
  intros H.
  specialize (H sample_library df_sample df_stations world_ok eq_refl).
  vm_compute in H. discriminate.
Qed.

(** C6, as the claim states it, fails: two runs that end normally, with the
    same outcome of the guard on the token and the same presence checks,
    go through different lines, because one of them takes the install
    branch of lines 15-16. *)
Lemma install_branch_changes_path :
  ~ (forall lib w1 w2,
        outcome lib w1 = Done tt -> outcome lib w2 = Done tt ->
        guard w1 = guard w2 ->
        presence w1 = presence w2 ->
        path lib w1 = path lib w2).
Proof.
  intros H.
  specialize (H sample_library world_denied world_install
                eq_refl eq_refl eq_refl eq_refl).
  vm_compute in H. discriminate.
Qed.

(** C10, as the claim states it, fails: with temperatures 1.0 and
    infinity, [hist] raises on line 84; the token was obtained and the
    query answered, the figure was created, but line 114 is never reached
    and the figure is not shown. *)
Lemma figure_not_shown_when_hist_raises :
  ~ (forall lib w out df,
        snd (prelude w) = Done tt ->
        spawn w coder_argv = Exited 0 out ->
        truthy (Some (strip out)) = true ->
        bigquery w (Some (strip out)) project query = Table df ->
        In (78%nat, Subplots 2 2 15 10) (trace lib w)
        /\ In (114%nat, Show) (trace lib w)).
Proof.
  intros H.
  destruct (H sample_library world_inf ("ya29.token" ++ nl)%string df_inf
              eq_refl eq_refl eq_refl eq_refl) as [_ Hshow].
  pose proof (count_In
                (fun e => match e with Show => true | _ => false end)
                _ _ Hshow eq_refl) as Hc.
  vm_compute in Hc. lia.
Qed.

(** ** Sample runs of the theorems *)

Lemma helper_failure_skips_work_witness :
  (snd (prelude world_denied) = Done tt
   /\ spawn world_denied coder_argv = Exited 1 EmptyString
   /\ 1%Z <> 0%Z)
  /\ script sample_library world_denied
     = (fst (prelude world_denied) ++ [run_step; error_step 1; failed_step],
        Done tt).
Proof.
  split; [repeat split; discriminate|].
  apply (helper_failure_skips_work sample_library world_denied 1
           EmptyString);
    [reflexivity | reflexivity | discriminate].
Defined.



Lemma launch_failure_propagates_witness :
  (snd (prelude world_no_helper) = Done tt
   /\ spawn world_no_helper coder_argv = LaunchFailed ENOENT)
  /\ outcome sample_library world_no_helper = Raised (OSError ENOENT).
Proof.
  split; [repeat split|].
  unfold outcome.
  destruct (launch_failure_propagates sample_library world_no_helper ENOENT
              eq_refl eq_refl)
    as (_ & _ & S & _).
  rewrite S. reflexivity.
Defined.

Lemma one_fixed_query_witness :
  (snd (prelude world_ok) = Done tt
   /\ spawn world_ok coder_argv = Exited 0 ("ya29.token" ++ nl)
   /\ truthy (Some (strip ("ya29.token" ++ nl))) = true)
  /\ count is_query (trace sample_library world_ok) = 1%nat.
Proof.
  split; [repeat split|].
  apply (one_fixed_query sample_library world_ok
           ("ya29.token" ++ nl)%string);
    reflexivity.
Defined.

Lemma summary_in_order_witness :
  (snd (prelude world_ok) = Done tt
   /\ spawn world_ok coder_argv = Exited 0 ("ya29.token" ++ nl)
   /\ truthy (Some (strip ("ya29.token" ++ nl))) = true
   /\ bigquery world_ok (Some (strip ("ya29.token" ++ nl))) project query
      = Table df_sample)
  /\ fst (summarize sample_library df_sample world_ok)
     = summary_lead df_sample ++ [(75%nat, Print [FDescribe df_sample])].
Proof.
  split; [repeat split|].
  apply (summary_in_order sample_library world_ok
           ("ya29.token" ++ nl)%string df_sample
           eq_refl eq_refl eq_refl eq_refl).
Defined.

Lemma charts_follow_columns_witness :
  (snd (prelude world_ok) = Done tt
   /\ spawn world_ok coder_argv = Exited 0 ("ya29.token" ++ nl)
   /\ truthy (Some (strip ("ya29.token" ++ nl))) = true
   /\ bigquery world_ok (Some (strip ("ya29.token" ++ nl))) project query
      = Table df_sample)
  /\ (count is_chart (trace sample_library world_ok) <= 5)%nat.
Proof.
  split; [repeat split|].
  apply (charts_follow_columns sample_library world_ok
           ("ya29.token" ++ nl)%string df_sample
           eq_refl eq_refl eq_refl eq_refl).
Defined.

Lemma path_follows_decisions_witness :
  (outcome sample_library world_ok = Done tt
   /\ outcome sample_library (world_with (Exited 0 "t") df_sample)
      = Done tt
   /\ installs world_ok = installs (world_with (Exited 0 "t") df_sample)
   /\ helper_rejected world_ok
      = helper_rejected (world_with (Exited 0 "t") df_sample)
   /\ guard world_ok = guard (world_with (Exited 0 "t") df_sample)
   /\ presence world_ok = presence (world_with (Exited 0 "t") df_sample)
   /\ stations_listed sample_library world_ok
      = stations_listed sample_library
          (world_with (Exited 0 "t") df_sample))
  /\ path sample_library world_ok
     = path sample_library (world_with (Exited 0 "t") df_sample).
Proof.
  split; [repeat split|].
  apply (path_follows_decisions sample_library world_ok
           (world_with (Exited 0 "t") df_sample));
    reflexivity.
Defined.

Lemma grid_always_shown_witness :
  (snd (prelude world_bare) = Done tt
   /\ spawn world_bare coder_argv = Exited 0 ("ya29.token" ++ nl)
   /\ truthy (Some (strip ("ya29.token" ++ nl))) = true
   /\ bigquery world_bare (Some (strip ("ya29.token" ++ nl))) project query
      = Table df_bare
   /\ describe_raises sample_library df_bare = None)
  /\ exists pre rest,
       trace sample_library world_bare
       = pre
           ++ [(78, Subplots 2 2 15 10);
               (79, Suptitle "Weather Data Analysis - GSOD Dataset" 16)]%nat
           ++ rest
       /\ lines_in 9 75 pre = true
       /\ lines_in 84 135 rest = true
       /\ (hist_accepts sample_library df_bare ->
           exists mid post,
             rest = mid ++ [(113, TightLayout); (114, Show)]%nat ++ post
             /\ lines_in 84 111 mid = true
             /\ lines_in 120 135 post = true)
       /\ (has_column "mean_temp" df_bare = false ->
           has_column "total_precipitation" df_bare = false ->
           has_column "mean_wind_speed" df_bare = false ->
           has_column "mean_visibility" df_bare = false ->
           (exists post,
              rest = [(113, TightLayout); (114, Show)]%nat ++ post
              /\ lines_in 120 135 post = true)
           /\ count is_hist (trace sample_library world_bare) = 0%nat).
Proof.
  split; [repeat split|].
  exact (grid_always_shown sample_library world_bare
           ("ya29.token" ++ nl)%string df_bare
           eq_refl eq_refl eq_refl eq_refl eq_refl).
Defined.

Lemma install_failure_aborts_witness :
  (import_ok (world_with_imports (fun l => negb (l =? 14)%nat)
                (Exited 2 EmptyString)) 14 = false
   /\ spawn (world_with_imports (fun l => negb (l =? 14)%nat)
               (Exited 2 EmptyString))
        (install_argv "/usr/bin/python3") = Exited 2 EmptyString
   /\ 2%Z <> 0%Z)
  /\ outcome sample_library
       (world_with_imports (fun l => negb (l =? 14)%nat)
          (Exited 2 EmptyString))
     = Raised (CalledProcessError 2 (install_argv "/usr/bin/python3")).
Proof.
  split; [repeat split; discriminate|].
  unfold outcome.
  rewrite (install_failure_aborts sample_library
             (world_with_imports (fun l => negb (l =? 14)%nat)
                (Exited 2 EmptyString)) 2 EmptyString);
    [reflexivity | reflexivity | reflexivity | discriminate].
Defined.

Lemma unguarded_import_aborts_witness :
  (import_ok (world_with_imports (fun l => negb (l =? 21)%nat)
                (Exited 0 EmptyString)) 14 = true
   /\ In 21%nat [20; 21; 22; 23]%nat
   /\ import_ok (world_with_imports (fun l => negb (l =? 21)%nat)
                   (Exited 0 EmptyString)) 21 = false)
  /\ outcome sample_library
       (world_with_imports (fun l => negb (l =? 21)%nat)
          (Exited 0 EmptyString))
     = Raised ImportError.
Proof.
  split; [repeat split; simpl; auto|].
  apply (unguarded_import_aborts sample_library
           (world_with_imports (fun l => negb (l =? 21)%nat)
              (Exited 0 EmptyString)) 21%nat);
    [reflexivity | simpl; auto | reflexivity].
Defined.

Lemma query_failure_aborts_witness :
  (snd (prelude (world_answering FetchFailed)) = Done tt
   /\ spawn (world_answering FetchFailed) coder_argv = Exited 0 "ya29.token"
   /\ truthy (Some (strip "ya29.token")) = true
   /\ (forall df,
         bigquery (world_answering FetchFailed) (Some (strip "ya29.token"))
           project query <> Table df))
  /\ outcome sample_library (world_answering FetchFailed) = Raised ApiError.
Proof.
  split; [repeat split; discriminate|].
  apply (query_failure_aborts sample_library (world_answering FetchFailed)
           "ya29.token");
    [reflexivity | reflexivity | reflexivity | discriminate].
Defined.

Lemma normal_run_ends_with_message_witness :
  outcome sample_library world_ok = Done tt
  /\ exists t,
       trace sample_library world_ok
       = t ++ [if guard world_ok then complete_step else failed_step]
       /\ lines_in 9 133 t = true.
Proof.
  split; [reflexivity|].
  exact (normal_run_ends_with_message sample_library world_ok eq_refl).
Defined.


Lemma token_verbatim_iff_clean_witness :
  spawn (world_answering QueryRejected) coder_argv = Exited 0 "ya29.token"
  /\ snd (get_access_token (world_answering QueryRejected))
     = Done (Some "ya29.token").
Proof.
  split; [reflexivity|].
  apply (token_verbatim_iff_clean (world_answering QueryRejected)
           "ya29.token" eq_refl).
  split; reflexivity.
Defined.

Lemma listing_follows_bar_chart_witness :
  (has_column "station_number" df_sample = true
   /\ bar_raises sample_library (top_stations sample_library df_sample)
      = None)
  /\ List.length
       (listing (fst (station_analysis sample_library df_sample world_ok)))
     = List.length (top_stations sample_library df_sample).
Proof.
  split; [repeat split|].
  apply (listing_follows_bar_chart sample_library df_sample world_ok
           eq_refl eq_refl).
Defined.

Lemma token_only_reaches_client_witness :
  ((forall l, import_ok world_ok l
              = import_ok (world_with (Exited 0 "t") df_sample) l)
   /\ executable world_ok = executable (world_with (Exited 0 "t") df_sample)
   /\ spawn world_ok (install_argv (executable world_ok))
      = spawn (world_with (Exited 0 "t") df_sample)
          (install_argv (executable (world_with (Exited 0 "t") df_sample)))
   /\ spawn world_ok coder_argv = Exited 0 ("ya29.token" ++ nl)
   /\ spawn (world_with (Exited 0 "t") df_sample) coder_argv = Exited 0 "t"
   /\ truthy (Some (strip ("ya29.token" ++ nl))) = true
   /\ truthy (Some (strip "t")) = true
   /\ bigquery world_ok (Some (strip ("ya29.token" ++ nl))) project query
      = bigquery (world_with (Exited 0 "t") df_sample) (Some (strip "t"))
          project query)
  /\ outcome sample_library world_ok
     = outcome sample_library (world_with (Exited 0 "t") df_sample).
Proof.
  split; [repeat split|].
  apply (token_only_reaches_client sample_library world_ok
           (world_with (Exited 0 "t") df_sample)
           ("ya29.token" ++ nl)%string "t");
    reflexivity.
Defined.
